(** * hmt_escrow.storage: encrypted, content-addressed upload and download

    A shallow embedding of [src/hmt_escrow/storage.py].  The module's own
    functions ([_connect], [_connect_s3], [download], [upload], [_decrypt],
    [_encrypt]) are transcribed statement by statement into a state-and-
    exception monad over a model of the outside world (the IPFS daemon, the
    S3 endpoint, the operating system's entropy and the logger).

    What the module imports is handled as follows:
    - [codecs.decode(_, 'hex')], [str.encode('utf-8')],
      [bytes.decode('utf-8')] and [hashlib.sha1(_).hexdigest()] are
      deterministic functions with a public definition; they are written
      out and run on test vectors;
    - [json] is an interface ([JsonModule]); a reference implementation for
      the value types modelled here is given for concrete runs;
    - [p2p.ecies] is not part of the repository; it is modelled from the
      specification's description of the scheme, over an interface of
      cryptographic primitives ([EciesPrimitives]) and their functional
      laws ([EciesLaws]). *)

From Stdlib Require Import ZArith Lia.
From Stdlib.Strings Require Import Byte Ascii String.
From stdpp Require Import base option list gmap.

Local Open Scope Z_scope.
#[local] Set Warnings "-register-all".

(* ================================================================== *)
(** * Python values                                                    *)
(* ================================================================== *)

(** [bytes]: an immutable sequence of octets. *)
Abbreviation bytes := (list byte).

(** [str]: an immutable sequence of Unicode code points (0 .. 0x10FFFF).
    Lone surrogates are legal in a Python [str]. *)
Abbreviation pystr := (list Z).

#[global] Instance byte_eq_dec : EqDecision byte := Byte.byte_eq_dec.

Definition Z_of_byte (b : byte) : Z := Z.of_N (Byte.to_N b).

Definition byte_of_Z (z : Z) : byte :=
  match Byte.of_N (Z.to_N (z mod 256)) with
  | Some b => b
  | None => x00
  end.

(** A string literal of the development, read as a Python [str] of ASCII
    code points. *)
Fixpoint py (s : string) : pystr :=
  match s with
  | EmptyString => []
  | String c s' => Z.of_N (N_of_ascii c) :: py s'
  end.

(** The same, with every apostrophe of the literal read as a double
    quote. *)
Definition pyq (s : string) : pystr :=
  map (fun c => if c =? 39 then 34 else c) (py s).

(** A [bytes] literal [b'...'] of ASCII characters. *)
Definition pyb (s : string) : bytes := map byte_of_Z (py s).

(** The exceptions that can travel through the module.  The payload of
    [DecryptionError] is the library's message; [ClientError] carries the
    S3 error code. *)
Inductive exn : Type :=
| TypeError (what : pystr)
| ValueError (what : pystr)
| UnicodeEncodeError
| UnicodeDecodeError
| BinasciiError
| ValidationError
| DecryptionError (what : pystr)
| JSONDecodeError
| ConnectionError
| TimeoutError
| ErrorResponse
| BotoCoreError
| ClientError (code : pystr).

#[global] Instance exn_eq_dec : EqDecision exn.
Proof. solve_decision. Defined.

(** Outcome of a call: it raises or it returns. *)
Inductive result (A : Type) : Type :=
| Raise (e : exn)
| Return (a : A).
Arguments Raise {A} e.
Arguments Return {A} a.

Definition is_raise {A} (r : result A) : bool :=
  match r with Raise _ => true | Return _ => false end.

Definition rbind {A B} (r : result A) (k : A -> result B) : result B :=
  match r with
  | Raise e => Raise e
  | Return a => k a
  end.

(** Values a caller can put into the [Dict] handed to [upload].  Floats are
    left out of the model.  [PyBytes] stands for the values [json] refuses. *)
Inductive pyobj : Type :=
| PyNone
| PyBool (b : bool)
| PyInt (n : Z)
| PyStr (s : pystr)
| PyBytes (b : bytes)
| PyList (xs : list pyobj)
| PyDict (items : list (pystr * pyobj)).

Fixpoint dict_get (k : pystr) (items : list (pystr * pyobj)) : option pyobj :=
  match items with
  | [] => None
  | (k', v) :: rest => if decide (k = k') then Some v else dict_get k rest
  end.

(** Python's [==] on these values: dictionaries compare without regard to
    insertion order, and [True == 1]. *)
Fixpoint py_eqb (a b : pyobj) {struct a} : bool :=
  match a, b with
  | PyNone, PyNone => true
  | PyBool x, PyBool y => Bool.eqb x y
  | PyBool x, PyInt n => n =? (if x then 1 else 0)
  | PyInt n, PyBool x => n =? (if x then 1 else 0)
  | PyInt m, PyInt n => m =? n
  | PyStr s, PyStr t => bool_decide (s = t)
  | PyBytes s, PyBytes t => bool_decide (s = t)
  | PyList xs, PyList ys =>
      (fix go (xs : list pyobj) (ys : list pyobj) : bool :=
         match xs, ys with
         | [], [] => true
         | x :: xs', y :: ys' => py_eqb x y && go xs' ys'
         | _, _ => false
         end) xs ys
  | PyDict d1, PyDict d2 =>
      (length d1 =? length d2)%nat &&
      (fix go (d : list (pystr * pyobj)) : bool :=
         match d with
         | [] => true
         | (k, v) :: rest =>
             match dict_get k d2 with
             | Some v' => py_eqb v v'
             | None => false
             end && go rest
         end) d1
  | _, _ => false
  end.

(* ================================================================== *)
(** * codecs.decode(_, 'hex')                                          *)
(* ================================================================== *)

(** Value of one hexadecimal digit; both cases are accepted. *)
Definition hex_val (c : Z) : option Z :=
  if (48 <=? c) && (c <=? 57) then Some (c - 48)
  else if (97 <=? c) && (c <=? 102) then Some (c - 87)
  else if (65 <=? c) && (c <=? 70) then Some (c - 55)
  else None.

(** [binascii.a2b_hex]: odd length or a non-hexadecimal digit raises
    [binascii.Error]. *)
Fixpoint codecs_decode_hex (s : pystr) : result bytes :=
  match s with
  | [] => Return []
  | hi :: lo :: rest =>
      match hex_val hi, hex_val lo with
      | Some h, Some l =>
          rbind (codecs_decode_hex rest)
                (fun tl => Return (byte_of_Z (16 * h + l) :: tl))
      | _, _ => Raise BinasciiError
      end
  | _ :: [] => Raise BinasciiError
  end.

(** Lowercase hexadecimal digit of a nibble. *)
Definition hex_digit (n : Z) : Z := if n <? 10 then 48 + n else 87 + n.

(** [bytes.hex()]: two lowercase digits per octet. *)
Definition hexlify (b : bytes) : pystr :=
  flat_map (fun x => [hex_digit (Z_of_byte x / 16); hex_digit (Z_of_byte x mod 16)]) b.

Definition is_lower_hex (c : Z) : bool :=
  ((48 <=? c) && (c <=? 57)) || ((97 <=? c) && (c <=? 102)).

(* ================================================================== *)
(** * str.encode('utf-8') and bytes.decode('utf-8')                    *)
(* ================================================================== *)

(** The strict UTF-8 encoder: a surrogate code point raises
    [UnicodeEncodeError]. *)
Definition utf8_encode_char (c : Z) : result bytes :=
  if (0 <=? c) && (c <? 128) then Return [byte_of_Z c]
  else if (128 <=? c) && (c <? 2048) then
    Return [byte_of_Z (192 + c / 64); byte_of_Z (128 + c mod 64)]
  else if (55296 <=? c) && (c <=? 57343) then Raise UnicodeEncodeError
  else if (2048 <=? c) && (c <? 65536) then
    Return [byte_of_Z (224 + c / 4096); byte_of_Z (128 + (c / 64) mod 64);
            byte_of_Z (128 + c mod 64)]
  else if (65536 <=? c) && (c <=? 1114111) then
    Return [byte_of_Z (240 + c / 262144); byte_of_Z (128 + (c / 4096) mod 64);
            byte_of_Z (128 + (c / 64) mod 64); byte_of_Z (128 + c mod 64)]
  else Raise UnicodeEncodeError.

Fixpoint utf8_encode (s : pystr) : result bytes :=
  match s with
  | [] => Return []
  | c :: rest =>
      rbind (utf8_encode_char c) (fun hd =>
      rbind (utf8_encode rest) (fun tl => Return (hd ++ tl)))
  end.

(** A continuation octet [10xxxxxx]. *)
Definition is_cont (b : Z) : bool := (128 <=? b) && (b <? 192).

(** The strict UTF-8 decoder: overlong forms, surrogates, code points
    above 0x10FFFF and truncated sequences raise [UnicodeDecodeError]. *)
Fixpoint utf8_decode (bs : bytes) : result pystr :=
  match bs with
  | [] => Return []
  | b0 :: r0 =>
      let x0 := Z_of_byte b0 in
      if x0 <? 128 then
        rbind (utf8_decode r0) (fun tl => Return (x0 :: tl))
      else if (194 <=? x0) && (x0 <? 224) then
        match r0 with
        | b1 :: r1 =>
            let x1 := Z_of_byte b1 in
            if is_cont x1 then
              rbind (utf8_decode r1) (fun tl =>
                Return (((x0 - 192) * 64 + (x1 - 128)) :: tl))
            else Raise UnicodeDecodeError
        | _ => Raise UnicodeDecodeError
        end
      else if (224 <=? x0) && (x0 <? 240) then
        match r0 with
        | b1 :: b2 :: r2 =>
            let x1 := Z_of_byte b1 in
            let x2 := Z_of_byte b2 in
            let c := (x0 - 224) * 4096 + (x1 - 128) * 64 + (x2 - 128) in
            if is_cont x1 && is_cont x2 && (2048 <=? c)
               && negb ((55296 <=? c) && (c <=? 57343)) then
              rbind (utf8_decode r2) (fun tl => Return (c :: tl))
            else Raise UnicodeDecodeError
        | _ => Raise UnicodeDecodeError
        end
      else if (240 <=? x0) && (x0 <? 245) then
        match r0 with
        | b1 :: b2 :: b3 :: r3 =>
            let x1 := Z_of_byte b1 in
            let x2 := Z_of_byte b2 in
            let x3 := Z_of_byte b3 in
            let c := (x0 - 240) * 262144 + (x1 - 128) * 4096
                     + (x2 - 128) * 64 + (x3 - 128) in
            if is_cont x1 && is_cont x2 && is_cont x3
               && (65536 <=? c) && (c <=? 1114111) then
              rbind (utf8_decode r3) (fun tl => Return (c :: tl))
            else Raise UnicodeDecodeError
        | _ => Raise UnicodeDecodeError
        end
      else Raise UnicodeDecodeError
  end.

(* ================================================================== *)
(** * hashlib.sha1                                                     *)
(* ================================================================== *)

Module SHA1.

Definition w32 (x : Z) : Z := x mod 4294967296.

Definition add32 (x y : Z) : Z := w32 (x + y).

Definition rotl (n x : Z) : Z :=
  w32 (Z.lor (Z.shiftl x n) (Z.shiftr x (32 - n))).

Definition not32 (x : Z) : Z := 4294967295 - x.

(** Big-endian octets of a 32-bit word and of the 64-bit bit count. *)
Definition be32 (x : Z) : bytes :=
  [byte_of_Z (x / 16777216); byte_of_Z (x / 65536);
   byte_of_Z (x / 256); byte_of_Z x].

Definition be64 (x : Z) : bytes := be32 (x / 4294967296) ++ be32 x.

(** Message padding: one 0x80 octet, zeros up to 56 modulo 64, then the
    length in bits. *)
Definition pad (msg : bytes) : bytes :=
  let len := Z.of_nat (length msg) in
  msg ++ [x80%byte]
      ++ repeat x00%byte (Z.to_nat ((55 - len) mod 64))
      ++ be64 (8 * len).

(** The sixteen big-endian words of a 64-octet block. *)
Fixpoint words (n : nat) (bs : bytes) : list Z :=
  match n, bs with
  | S n', b0 :: b1 :: b2 :: b3 :: rest =>
      (Z_of_byte b0 * 16777216 + Z_of_byte b1 * 65536
       + Z_of_byte b2 * 256 + Z_of_byte b3) :: words n' rest
  | _, _ => []
  end.

(** Message schedule, kept newest first: [W t] is computed from
    [W (t-3)], [W (t-8)], [W (t-14)] and [W (t-16)]. *)
Fixpoint extend (n : nat) (rev_w : list Z) : list Z :=
  match n with
  | O => rev_w
  | S n' =>
      let w := rotl 1 (Z.lxor (Z.lxor (nth 2 rev_w 0) (nth 7 rev_w 0))
                              (Z.lxor (nth 13 rev_w 0) (nth 15 rev_w 0))) in
      extend n' (w :: rev_w)
  end.

Definition schedule (block : bytes) : list Z :=
  rev (extend 64 (rev (words 16 block))).

Record state : Type := mkState { h0 : Z; h1 : Z; h2 : Z; h3 : Z; h4 : Z }.

Definition init : state :=
  {| h0 := 1732584193; h1 := 4023233417; h2 := 2562383102;
     h3 := 271733878; h4 := 3285377520 |}.

Definition f_k (t : nat) (b c d : Z) : Z * Z :=
  if (t <? 20)%nat then
    (Z.lor (Z.land b c) (Z.land (not32 b) d), 1518500249)
  else if (t <? 40)%nat then
    (Z.lxor (Z.lxor b c) d, 1859775393)
  else if (t <? 60)%nat then
    (Z.lor (Z.lor (Z.land b c) (Z.land b d)) (Z.land c d), 2400959708)
  else
    (Z.lxor (Z.lxor b c) d, 3395469782).

Fixpoint rounds (t : nat) (ws : list Z) (s : state) : state :=
  match ws with
  | [] => s
  | w :: ws' =>
      let '(f, k) := f_k t (h1 s) (h2 s) (h3 s) in
      let temp := add32 (add32 (add32 (add32 (rotl 5 (h0 s)) f) (h4 s)) k) w in
      rounds (S t) ws'
             {| h0 := temp; h1 := h0 s; h2 := rotl 30 (h1 s);
                h3 := h2 s; h4 := h3 s |}
  end.

Definition compress (s : state) (block : bytes) : state :=
  let r := rounds 0 (schedule block) s in
  {| h0 := add32 (h0 s) (h0 r); h1 := add32 (h1 s) (h1 r);
     h2 := add32 (h2 s) (h2 r); h3 := add32 (h3 s) (h3 r);
     h4 := add32 (h4 s) (h4 r) |}.

Fixpoint blocks (n : nat) (bs : bytes) (s : state) : state :=
  match n with
  | O => s
  | S n' => blocks n' (drop 64 bs) (compress s (take 64 bs))
  end.

(** [hashlib.sha1(data).digest()]: twenty octets. *)
Definition digest (data : bytes) : bytes :=
  let p := pad data in
  let s := blocks (length p / 64) p init in
  be32 (h0 s) ++ be32 (h1 s) ++ be32 (h2 s) ++ be32 (h3 s) ++ be32 (h4 s).

(** [hashlib.sha1(data).hexdigest()]. *)
Definition hexdigest (data : bytes) : pystr := hexlify (digest data).

End SHA1.

(* ================================================================== *)
(** * The imported libraries                                           *)
(* ================================================================== *)

(** The two entry points of the [json] module that the code calls:
    [json.dumps(obj, sort_keys=...)] and [json.loads(s)]. *)
Class JsonModule : Type := {
  json_dumps : pyobj -> bool -> result pystr;
  json_loads : pystr -> result pyobj
}.

(** [eth_keys.keys]: key objects wrap a byte string of fixed length, 32
    octets for a private key and 64 for a public key (the lengths of the
    keys in the module's doctests); another length raises. *)
Definition PRIVKEY_LEN : nat := 32.
Definition PUBKEY_LEN : nat := 64.

Record PrivateKey : Type := mkPrivateKey { privkey_bytes : bytes }.
Record PublicKey : Type := mkPublicKey { pubkey_bytes : bytes }.

Definition keys_PrivateKey (b : bytes) : result PrivateKey :=
  if (length b =? PRIVKEY_LEN)%nat then Return (mkPrivateKey b)
  else Raise ValidationError.

Definition keys_PublicKey (b : bytes) : result PublicKey :=
  if (length b =? PUBKEY_LEN)%nat then Return (mkPublicKey b)
  else Raise ValidationError.

(** The primitives under the integrated encryption scheme. *)
Class EciesPrimitives : Type := {
  (** public key of a private key *)
  pubkey_of : bytes -> bytes;
  (** key agreement between a private key and a public key *)
  ecdh_agree : bytes -> bytes -> bytes;
  (** derivation of the symmetric key and of the MAC key *)
  kdf : bytes -> bytes * bytes;
  sym_encrypt : bytes -> bytes -> bytes;
  sym_decrypt : bytes -> bytes -> bytes;
  (** message authentication code, of [TAG_LEN] octets *)
  mac : bytes -> bytes -> bytes;
  TAG_LEN : nat
}.

(** What the scheme needs of its primitives to work at all: both parties
    agree on the secret, decryption undoes encryption, and keys and tags
    have their fixed lengths.  Nothing here is a security assumption. *)
Class EciesLaws (P : EciesPrimitives) : Prop := {
  pubkey_of_length : forall k,
    length k = PRIVKEY_LEN -> length (pubkey_of k) = PUBKEY_LEN;
  pubkey_of_inj : forall k1 k2,
    length k1 = PRIVKEY_LEN -> length k2 = PRIVKEY_LEN ->
    pubkey_of k1 = pubkey_of k2 -> k1 = k2;
  ecdh_agree_sym : forall a b,
    length a = PRIVKEY_LEN -> length b = PRIVKEY_LEN ->
    ecdh_agree a (pubkey_of b) = ecdh_agree b (pubkey_of a);
  sym_decrypt_encrypt : forall k m, sym_decrypt k (sym_encrypt k m) = m;
  mac_length : forall k m, length (mac k m) = TAG_LEN
}.

Section Ecies.
Context {P : EciesPrimitives}.

(** Modelled from the spec: [p2p.ecies.encrypt] is not in the repository.
    An ephemeral key pair is generated per call; a shared secret comes
    from key agreement between the ephemeral private key and the
    recipient's public key; a symmetric key and a MAC key are derived
    from it; the plaintext is symmetrically encrypted; the shared MAC
    data is mixed into the tag alongside the ephemeral public key and
    the ciphertext.  The output embeds the ephemeral public key, the tag
    and the encrypted payload.  The ephemeral private key is the
    randomness of the call and is passed in. *)
Definition ecies_encrypt_with (ephemeral : PrivateKey) (data : bytes)
    (pubkey : PublicKey) (shared_mac_data : bytes) : bytes :=
  let ephem_pubkey := pubkey_of (privkey_bytes ephemeral) in
  let key := kdf (ecdh_agree (privkey_bytes ephemeral) (pubkey_bytes pubkey)) in
  let ciphertext := sym_encrypt (fst key) data in
  let tag := mac (snd key) (ephem_pubkey ++ ciphertext ++ shared_mac_data) in
  ephem_pubkey ++ tag ++ ciphertext.

(** Modelled from the spec: [p2p.ecies.decrypt] is not in the repository.
    The three parts are read back from the message, the keys are derived
    from the private key and the embedded ephemeral public key, and the
    tag is verified before anything is decrypted; a message too short to
    hold a key and a tag, or a tag that does not verify, raises
    [DecryptionError]. *)
Definition ecies_decrypt (data : bytes) (privkey : PrivateKey)
    (shared_mac_data : bytes) : result bytes :=
  if (length data <? PUBKEY_LEN + TAG_LEN)%nat then
    Raise (DecryptionError (py "Failed to verify tag"))
  else
    let ephem_pubkey := take PUBKEY_LEN data in
    let tag := take TAG_LEN (drop PUBKEY_LEN data) in
    let ciphertext := drop (PUBKEY_LEN + TAG_LEN) data in
    let key := kdf (ecdh_agree (privkey_bytes privkey) ephem_pubkey) in
    if bool_decide (mac (snd key) (ephem_pubkey ++ ciphertext ++ shared_mac_data) = tag)
    then Return (sym_decrypt (fst key) ciphertext)
    else Raise (DecryptionError (py "Failed to verify tag")).

End Ecies.

(* ================================================================== *)
(** * Module-level configuration                                       *)
(* ================================================================== *)

(** The values the module reads from the environment when it is imported.
    [SHARED_MAC_DATA] is [os.getenv("SHARED_MAC", b'9da0...')]; the model
    covers its byte-string values. *)
Class Config : Type := {
  SHARED_MAC_DATA : bytes;
  DEBUG : bool;
  IPFS_HOST : pystr;
  IPFS_PORT : Z;
  ESCROW_BUCKETNAME : pystr;
  ESCROW_AWS_ACCESS_KEY_ID : pystr;
  ESCROW_AWS_SECRET_ACCESS_KEY : pystr;
  ESCROW_ENDPOINT_URL : pystr
}.

(** The defaults of the [os.getenv] calls. *)
Definition default_config : Config := {|
  SHARED_MAC_DATA :=
    pyb "9da0d3721774843193737244a0f3355191f66ff7321e83eae83f7f746eb34350";
  DEBUG := false;
  IPFS_HOST := py "localhost";
  IPFS_PORT := 5001;
  ESCROW_BUCKETNAME := py "escrow-results";
  ESCROW_AWS_ACCESS_KEY_ID := py "minio";
  ESCROW_AWS_SECRET_ACCESS_KEY := py "minio123";
  ESCROW_ENDPOINT_URL := py "http://minio:9000"
|}.

(* ================================================================== *)
(** * The outside world                                                *)
(* ================================================================== *)

Inductive level : Type := LvlDebug | LvlInfo | LvlWarning | LvlError.

(** The module's log messages, one constructor per format string, with the
    values that are formatted into it. *)
Inductive log_msg : Type :=
| Msg_ipfs_connection_failed (e : exn)
| Msg_s3_connection_failed (e : exn)
| Msg_downloading_key (key : pystr)
| Msg_ipfs_read_failed (key private_key : pystr) (e : exn)
| Msg_downloading_s3_key (key : pystr)
| Msg_s3_read_failed (key private_key : pystr) (e : exn)
| Msg_cant_extract_json
| Msg_uploaded_to_ipfs (key : pystr)
| Msg_ipfs_add_failed (e : exn)
| Msg_uploaded_to_s3 (hash_ : pystr)
| Msg_s3_upload_failed (hash_ : pystr) (e : exn).

(** Calls into the two client libraries, successful or not. *)
Inductive call : Type :=
| CallIpfsConnect (host : pystr) (port : Z)
| CallIpfsAddBytes (data : bytes)
| CallIpfsCat (key : pystr) (timeout : Z)
| CallBoto3Client (endpoint_url : pystr)
| CallPutObject (bucket key : pystr) (body : bytes)
| CallGetObject (bucket key : pystr).

(** The state outside the module.  Each [_fault] field, when set, is the
    exception the corresponding request raises (daemon down, endpoint
    unreachable, permission denied ...).  [ipfs_cid] is the content store's
    own key scheme.  [calls] and [log] grow at the head. *)
Record World : Type := mkWorld {
  ipfs_connect_fault : option exn;
  ipfs_add_fault : option exn;
  ipfs_cat_fault : option exn;
  ipfs_cid : bytes -> pystr;
  ipfs_blocks : gmap pystr bytes;
  s3_client_fault : option exn;
  s3_put_fault : option exn;
  s3_get_fault : option exn;
  s3_objects : gmap (pystr * pystr) bytes;
  entropy : nat -> bytes;
  drawn : nat;
  calls : list call;
  log : list (level * log_msg)
}.

Definition with_call (c : call) (w : World) : World :=
  mkWorld (ipfs_connect_fault w) (ipfs_add_fault w) (ipfs_cat_fault w)
          (ipfs_cid w) (ipfs_blocks w) (s3_client_fault w) (s3_put_fault w)
          (s3_get_fault w) (s3_objects w) (entropy w) (drawn w)
          (c :: calls w) (log w).

Definition with_log (r : level * log_msg) (w : World) : World :=
  mkWorld (ipfs_connect_fault w) (ipfs_add_fault w) (ipfs_cat_fault w)
          (ipfs_cid w) (ipfs_blocks w) (s3_client_fault w) (s3_put_fault w)
          (s3_get_fault w) (s3_objects w) (entropy w) (drawn w)
          (calls w) (r :: log w).

Definition with_ipfs_blocks (m : gmap pystr bytes) (w : World) : World :=
  mkWorld (ipfs_connect_fault w) (ipfs_add_fault w) (ipfs_cat_fault w)
          (ipfs_cid w) m (s3_client_fault w) (s3_put_fault w)
          (s3_get_fault w) (s3_objects w) (entropy w) (drawn w)
          (calls w) (log w).

Definition with_s3_objects (m : gmap (pystr * pystr) bytes) (w : World) : World :=
  mkWorld (ipfs_connect_fault w) (ipfs_add_fault w) (ipfs_cat_fault w)
          (ipfs_cid w) (ipfs_blocks w) (s3_client_fault w) (s3_put_fault w)
          (s3_get_fault w) m (entropy w) (drawn w)
          (calls w) (log w).

Definition with_drawn (n : nat) (w : World) : World :=
  mkWorld (ipfs_connect_fault w) (ipfs_add_fault w) (ipfs_cat_fault w)
          (ipfs_cid w) (ipfs_blocks w) (s3_client_fault w) (s3_put_fault w)
          (s3_get_fault w) (s3_objects w) (entropy w) n
          (calls w) (log w).

(** Computations that read and change the world and may raise; what was
    done before an exception stays done. *)
Definition M (A : Type) : Type := World -> result A * World.

Definition ret {A} (a : A) : M A := fun w => (Return a, w).

Definition raise {A} (e : exn) : M A := fun w => (Raise e, w).

Definition bind {A B} (m : M A) (k : A -> M B) : M B :=
  fun w =>
    match m w with
    | (Raise e, w') => (Raise e, w')
    | (Return a, w') => k a w'
    end.

(** A pure call that may raise. *)
Definition lift {A} (r : result A) : M A := fun w => (r, w).

(** [try: body  except Exception as e: handler(e)]. *)
Definition try_except {A} (body : M A) (handler : exn -> M A) : M A :=
  fun w =>
    match body w with
    | (Raise e, w') => handler e w'
    | (Return a, w') => (Return a, w')
    end.

Declare Scope py_scope.
Delimit Scope py_scope with py.
Notation "x <- m ;; k" := (bind m (fun x => k))
  (at level 100, m at next level, right associativity) : py_scope.
Notation "m ;;; k" := (bind m (fun _ => k))
  (at level 100, right associativity) : py_scope.
Local Open Scope py_scope.

(** Everything the handlers log, at the level the logger was set to:
    [LOG.setLevel(logging.DEBUG if DEBUG else logging.INFO)]. *)
Definition LOG_emit (lvl : level) (msg : log_msg) : M unit :=
  fun w => (Return tt, with_log (lvl, msg) w).

Definition LOG_debug {C : Config} (msg : log_msg) : M unit :=
  if DEBUG then LOG_emit LvlDebug msg else ret tt.

(** The world after a [LOG.debug] call. *)
Definition debug_logged {C : Config} (msg : log_msg) (w : World) : World :=
  if DEBUG then with_log (LvlDebug, msg) w else w.

Definition LOG_warning (msg : log_msg) : M unit := LOG_emit LvlWarning msg.

Definition LOG_error (msg : log_msg) : M unit := LOG_emit LvlError msg.

(** ** ipfshttpclient *)

Record Client : Type := mkClient { client_host : pystr; client_port : Z }.

(** [ipfshttpclient.connect('/dns/{host}/tcp/{port}/http')]. *)
Definition ipfshttpclient_connect (host : pystr) (port : Z) : M Client :=
  fun w =>
    let w' := with_call (CallIpfsConnect host port) w in
    match ipfs_connect_fault w with
    | Some e => (Raise e, w')
    | None => (Return (mkClient host port), w')
    end.

(** [client.add_bytes(data)]: the store keeps the block under the key it
    derives from the content and answers with that key. *)
Definition Client_add_bytes (c : Client) (data : bytes) : M pystr :=
  fun w =>
    let w' := with_call (CallIpfsAddBytes data) w in
    match ipfs_add_fault w with
    | Some e => (Raise e, w')
    | None =>
        let key := ipfs_cid w data in
        (Return key, with_ipfs_blocks (<[key := data]> (ipfs_blocks w)) w')
    end.

(** [client.cat(key, timeout=...)]: a key nobody provides times out. *)
Definition Client_cat (c : Client) (key : pystr) (timeout : Z) : M bytes :=
  fun w =>
    let w' := with_call (CallIpfsCat key timeout) w in
    match ipfs_cat_fault w with
    | Some e => (Raise e, w')
    | None =>
        match ipfs_blocks w !! key with
        | Some data => (Return data, w')
        | None => (Raise TimeoutError, w')
        end
    end.

(** ** boto3 *)

Record S3Client : Type := mkS3Client {
  aws_access_key_id : pystr;
  aws_secret_access_key : pystr;
  endpoint_url : pystr
}.

Record S3Response : Type := mkS3Response { Body : bytes }.

(** [boto3.client("s3", aws_access_key_id=..., aws_secret_access_key=...,
    endpoint_url=...)]. *)
Definition boto3_client (key_id secret endpoint : pystr) : M S3Client :=
  fun w =>
    let w' := with_call (CallBoto3Client endpoint) w in
    match s3_client_fault w with
    | Some e => (Raise e, w')
    | None => (Return (mkS3Client key_id secret endpoint), w')
    end.

(** [client.put_object(Bucket=..., Key=..., Body=...)]: replaces what the
    bucket holds under the key. *)
Definition put_object (c : S3Client) (bucket key : pystr) (body : bytes) : M unit :=
  fun w =>
    let w' := with_call (CallPutObject bucket key body) w in
    match s3_put_fault w with
    | Some e => (Raise e, w')
    | None =>
        (Return tt, with_s3_objects (<[(bucket, key) := body]> (s3_objects w)) w')
    end.

(** [client.get_object(Bucket=..., Key=...)]: a key the bucket does not
    hold raises [ClientError] with code [NoSuchKey]. *)
Definition get_object (c : S3Client) (bucket key : pystr) : M S3Response :=
  fun w =>
    let w' := with_call (CallGetObject bucket key) w in
    match s3_get_fault w with
    | Some e => (Raise e, w')
    | None =>
        match s3_objects w !! (bucket, key) with
        | Some body => (Return (mkS3Response body), w')
        | None => (Raise (ClientError (py "NoSuchKey")), w')
        end
    end.

(** ** p2p.ecies, with its randomness *)

(** The ephemeral private key of one encryption, drawn from the system's
    entropy. *)
Definition generate_privkey : M PrivateKey :=
  fun w => (Return (mkPrivateKey (entropy w (drawn w))), with_drawn (S (drawn w)) w).

(** [ecies.encrypt(data, pubkey, shared_mac_data=...)]. *)
Definition ecies_encrypt {P : EciesPrimitives} (data : bytes)
    (pubkey : PublicKey) (shared_mac_data : bytes) : M bytes :=
  ephemeral <- generate_privkey ;;
  ret (ecies_encrypt_with ephemeral data pubkey shared_mac_data).

(* ================================================================== *)
(** * storage.py                                                       *)
(* ================================================================== *)

Section Storage.
Context {J : JsonModule} {P : EciesPrimitives} {C : Config}.

(** [def _connect(host: str, port: int) -> Client] *)
Definition _connect (host : pystr) (port : Z) : M Client :=
  try_except
    (IPFS_CLIENT <- ipfshttpclient_connect host port ;;
     ret IPFS_CLIENT)
    (fun e =>
       LOG_error (Msg_ipfs_connection_failed e) ;;;
       raise e).

(** [def _connect_s3()] *)
Definition _connect_s3 : M S3Client :=
  try_except
    (boto3_client ESCROW_AWS_ACCESS_KEY_ID ESCROW_AWS_SECRET_ACCESS_KEY
                  ESCROW_ENDPOINT_URL)
    (fun e =>
       LOG_error (Msg_s3_connection_failed e) ;;;
       raise e).

(** [def _decrypt(private_key: bytes, msg: bytes) -> str].  The key
    arrives as hexadecimal text. *)
Definition _decrypt (private_key : pystr) (msg : bytes) : result pystr :=
  rbind (rbind (codecs_decode_hex private_key) keys_PrivateKey) (fun priv_key =>
  rbind (ecies_decrypt msg priv_key SHARED_MAC_DATA) (fun e =>
  utf8_decode e)).

(** [def _encrypt(public_key: bytes, msg: str) -> bytes].  The key
    arrives as hexadecimal text. *)
Definition _encrypt (public_key : pystr) (msg : pystr) : M bytes :=
  pub_key <- lift (rbind (codecs_decode_hex public_key) keys_PublicKey) ;;
  msg_bytes <- lift (utf8_encode msg) ;;
  ecies_encrypt msg_bytes pub_key SHARED_MAC_DATA.

(** [def download(key: str, private_key: bytes, s3: bool = True) -> Dict].
    An omitted [s3] argument is [None] here. *)
Definition download (key : pystr) (private_key : pystr) (s3 : option bool)
    : M pyobj :=
  let s3 := default true s3 in
  if negb s3 then
    msg <- try_except
             (IPFS_CLIENT <- _connect IPFS_HOST IPFS_PORT ;;
              LOG_debug (Msg_downloading_key key) ;;;
              ciphertext <- Client_cat IPFS_CLIENT key 30 ;;
              msg <- lift (_decrypt private_key ciphertext) ;;
              ret msg)
             (fun e =>
                LOG_warning (Msg_ipfs_read_failed key private_key e) ;;;
                raise e) ;;
    lift (json_loads msg)
  else
    msg <- try_except
             (LOG_debug (Msg_downloading_s3_key key) ;;;
              BOTO3_CLIENT <- _connect_s3 ;;
              response <- get_object BOTO3_CLIENT ESCROW_BUCKETNAME key ;;
              ciphertext <- ret (Body response) ;;
              msg <- lift (_decrypt private_key ciphertext) ;;
              ret msg)
             (fun e =>
                LOG_warning (Msg_s3_read_failed key private_key e) ;;;
                raise e) ;;
    lift (json_loads msg).

(** [def upload(msg: Dict, public_key: bytes, s3: bool = True)
         -> Tuple[str, str]].
    An omitted [s3] argument is [None] here. *)
Definition upload (msg : pyobj) (public_key : pystr) (s3 : option bool)
    : M (pystr * pystr) :=
  let s3 := default true s3 in
  manifest_ <- try_except
                 (lift (json_dumps msg true))
                 (fun e =>
                    LOG_error Msg_cant_extract_json ;;;
                    raise e) ;;
  hash_ <- lift (rbind (utf8_encode manifest_)
                       (fun data => Return (SHA1.hexdigest data))) ;;
  if negb s3 then
    try_except
      (IPFS_CLIENT <- _connect IPFS_HOST IPFS_PORT ;;
       encrypted_msg <- _encrypt public_key manifest_ ;;
       key <- Client_add_bytes IPFS_CLIENT encrypted_msg ;;
       LOG_debug (Msg_uploaded_to_ipfs key) ;;;
       ret (hash_, key))
      (fun e =>
         LOG_warning (Msg_ipfs_add_failed e) ;;;
         raise e)
  else
    try_except
      (BOTO3_CLIENT <- _connect_s3 ;;
       encrypted_msg <- _encrypt public_key manifest_ ;;
       put_object BOTO3_CLIENT ESCROW_BUCKETNAME hash_ encrypted_msg ;;;
       LOG_debug (Msg_uploaded_to_s3 hash_))
      (fun e =>
         LOG_warning (Msg_s3_upload_failed hash_ e)) ;;;
    ret (hash_, hash_).

End Storage.

(* ================================================================== *)
(** * A reference [json] for concrete runs                             *)
(* ================================================================== *)

(** [json.dumps] with its default separators and [ensure_ascii=True], and
    [json.loads], on the values of [pyobj]. *)
Module PyJson.

Fixpoint str_ltb (a b : pystr) : bool :=
  match a, b with
  | [], [] => false
  | [], _ :: _ => true
  | _ :: _, [] => false
  | x :: a', y :: b' => (x <? y) || ((x =? y) && str_ltb a' b')
  end.

Fixpoint insert_item (kv : pystr * pystr) (l : list (pystr * pystr))
    : list (pystr * pystr) :=
  match l with
  | [] => [kv]
  | kv' :: rest =>
      if str_ltb (fst kv') (fst kv) then kv' :: insert_item kv rest
      else kv :: l
  end.

Definition sort_items (l : list (pystr * pystr)) : list (pystr * pystr) :=
  fold_right insert_item [] l.

Definition hex4 (c : Z) : pystr :=
  [hex_digit (c / 4096); hex_digit ((c / 256) mod 16);
   hex_digit ((c / 16) mod 16); hex_digit (c mod 16)].

Definition escape_char (c : Z) : pystr :=
  if c =? 34 then [92; 34]
  else if c =? 92 then [92; 92]
  else if c =? 10 then [92; 110]
  else if c =? 13 then [92; 114]
  else if c =? 9 then [92; 116]
  else if c =? 8 then [92; 98]
  else if c =? 12 then [92; 102]
  else if (32 <=? c) && (c <=? 126) then [c]
  else if c <? 65536 then 92 :: 117 :: hex4 c
  else
    let v := c - 65536 in
    (92 :: 117 :: hex4 (55296 + v / 1024))
      ++ (92 :: 117 :: hex4 (56320 + v mod 1024)).

Definition dump_str (s : pystr) : pystr :=
  34 :: flat_map escape_char s ++ [34].

Fixpoint dec (fuel : nat) (n : Z) (acc : pystr) : pystr :=
  match fuel with
  | O => acc
  | S f =>
      let acc' := (48 + n mod 10) :: acc in
      if n <? 10 then acc' else dec f (n / 10) acc'
  end.

Definition dump_int (n : Z) : pystr :=
  if n <? 0 then 45 :: dec (S (Z.to_nat (Z.log2 (- n)))) (- n) []
  else dec (S (Z.to_nat (Z.log2 n))) n [].

Fixpoint join (sep : pystr) (parts : list pystr) : pystr :=
  match parts with
  | [] => []
  | [p] => p
  | p :: rest => p ++ sep ++ join sep rest
  end.

Fixpoint dumps (o : pyobj) (sort_keys : bool) : result pystr :=
  match o with
  | PyNone => Return (py "null")
  | PyBool true => Return (py "true")
  | PyBool false => Return (py "false")
  | PyInt n => Return (dump_int n)
  | PyStr s => Return (dump_str s)
  | PyBytes _ =>
      Raise (TypeError (py "Object of type bytes is not JSON serializable"))
  | PyList xs =>
      rbind ((fix go (xs : list pyobj) : result (list pystr) :=
                match xs with
                | [] => Return []
                | x :: rest =>
                    rbind (dumps x sort_keys) (fun sx =>
                    rbind (go rest) (fun sr => Return (sx :: sr)))
                end) xs)
            (fun parts => Return (91 :: join (py ", ") parts ++ [93]))
  | PyDict items =>
      rbind ((fix go (kvs : list (pystr * pyobj)) : result (list (pystr * pystr)) :=
                match kvs with
                | [] => Return []
                | (k, v) :: rest =>
                    rbind (dumps v sort_keys) (fun sv =>
                    rbind (go rest) (fun sr => Return ((k, sv) :: sr)))
                end) items)
            (fun kvs =>
               let kvs' := if sort_keys then sort_items kvs else kvs in
               Return (123 :: join (py ", ")
                                (map (fun kv => dump_str (fst kv) ++ py ": " ++ snd kv) kvs')
                           ++ [125]))
  end.

Definition is_ws (c : Z) : bool :=
  (c =? 32) || (c =? 9) || (c =? 10) || (c =? 13).

Fixpoint skip_ws (s : pystr) : pystr :=
  match s with
  | c :: r => if is_ws c then skip_ws r else s
  | [] => []
  end.

Definition parse_hex4 (s : pystr) : option (Z * pystr) :=
  match s with
  | a :: b :: c :: d :: r =>
      match hex_val a, hex_val b, hex_val c, hex_val d with
      | Some a, Some b, Some c, Some d => Some (((a * 16 + b) * 16 + c) * 16 + d, r)
      | _, _, _, _ => None
      end
  | _ => None
  end.

Definition unescape (e : Z) : option Z :=
  if e =? 34 then Some 34 else if e =? 92 then Some 92
  else if e =? 47 then Some 47 else if e =? 110 then Some 10
  else if e =? 114 then Some 13 else if e =? 116 then Some 9
  else if e =? 98 then Some 8 else if e =? 102 then Some 12
  else None.

(** The body of a string literal, after its opening quote. *)
Fixpoint parse_str (fuel : nat) (s : pystr) (acc : pystr) : option (pystr * pystr) :=
  match fuel, s with
  | S f, c :: r =>
      if c =? 34 then Some (rev acc, r)
      else if c <? 32 then None
      else if c =? 92 then
        match r with
        | 117 :: r1 =>
            match parse_hex4 r1 with
            | Some (u, r2) =>
                match r2 with
                | 92 :: 117 :: r3 =>
                    match parse_hex4 r3 with
                    | Some (u2, r4) =>
                        if (55296 <=? u) && (u <=? 56319)
                           && (56320 <=? u2) && (u2 <=? 57343)
                        then parse_str f r4
                               ((65536 + (u - 55296) * 1024 + (u2 - 56320)) :: acc)
                        else parse_str f r2 (u :: acc)
                    | None => parse_str f r2 (u :: acc)
                    end
                | _ => parse_str f r2 (u :: acc)
                end
            | None => None
            end
        | e :: r1 =>
            match unescape e with
            | Some x => parse_str f r1 (x :: acc)
            | None => None
            end
        | [] => None
        end
      else parse_str f r (c :: acc)
  | _, _ => None
  end.

Definition is_digit (c : Z) : bool := (48 <=? c) && (c <=? 57).

Fixpoint parse_digits (s : pystr) (acc : Z) : Z * pystr :=
  match s with
  | c :: r => if is_digit c then parse_digits r (acc * 10 + (c - 48)) else (acc, s)
  | [] => (acc, [])
  end.

(** An integer literal; a fraction or an exponent would make a float,
    which the model does not have. *)
Definition parse_int (s : pystr) : option (Z * pystr) :=
  let '(neg, s') := match s with 45 :: r => (true, r) | _ => (false, s) end in
  match s' with
  | c :: r =>
      if is_digit c then
        let '(n, rest) := if c =? 48 then (0, r) else parse_digits s' 0 in
        match rest with
        | 46 :: _ | 101 :: _ | 69 :: _ => None
        | _ => Some (if neg then - n else n, rest)
        end
      else None
  | [] => None
  end.

(** Assignment [d[k] = v] on the items of a dictionary. *)
Fixpoint dict_set (k : pystr) (v : pyobj) (items : list (pystr * pyobj))
    : list (pystr * pyobj) :=
  match items with
  | [] => [(k, v)]
  | (k', v') :: rest =>
      if decide (k = k') then (k, v) :: rest else (k', v') :: dict_set k v rest
  end.

Fixpoint parse_value (fuel : nat) (s : pystr) : option (pyobj * pystr) :=
  match fuel with
  | O => None
  | S f =>
      match skip_ws s with
      | 34 :: r =>
          match parse_str (length r) r [] with
          | Some (str, rest) => Some (PyStr str, rest)
          | None => None
          end
      | 91 :: r =>
          match skip_ws r with
          | 93 :: rest => Some (PyList [], rest)
          | _ => parse_elems f r []
          end
      | 123 :: r =>
          match skip_ws r with
          | 125 :: rest => Some (PyDict [], rest)
          | _ => parse_members f r []
          end
      | 110 :: 117 :: 108 :: 108 :: rest => Some (PyNone, rest)
      | 116 :: 114 :: 117 :: 101 :: rest => Some (PyBool true, rest)
      | 102 :: 97 :: 108 :: 115 :: 101 :: rest => Some (PyBool false, rest)
      | s' =>
          match parse_int s' with
          | Some (n, rest) => Some (PyInt n, rest)
          | None => None
          end
      end
  end
with parse_elems (fuel : nat) (s : pystr) (acc : list pyobj)
    : option (pyobj * pystr) :=
  match fuel with
  | O => None
  | S f =>
      match parse_value f s with
      | Some (v, rest) =>
          match skip_ws rest with
          | 44 :: rest' => parse_elems f rest' (v :: acc)
          | 93 :: rest' => Some (PyList (rev (v :: acc)), rest')
          | _ => None
          end
      | None => None
      end
  end
with parse_members (fuel : nat) (s : pystr) (acc : list (pystr * pyobj))
    : option (pyobj * pystr) :=
  match fuel with
  | O => None
  | S f =>
      match skip_ws s with
      | 34 :: r =>
          match parse_str (length r) r [] with
          | Some (k, rest) =>
              match skip_ws rest with
              | 58 :: rest1 =>
                  match parse_value f rest1 with
                  | Some (v, rest2) =>
                      match skip_ws rest2 with
                      | 44 :: rest3 => parse_members f rest3 (dict_set k v acc)
                      | 125 :: rest3 => Some (PyDict (dict_set k v acc), rest3)
                      | _ => None
                      end
                  | None => None
                  end
              | _ => None
              end
          | None => None
          end
      | _ => None
      end
  end.

Definition loads (s : pystr) : result pyobj :=
  match parse_value (S (S (2 * length s))) s with
  | Some (v, rest) =>
      match skip_ws rest with
      | [] => Return v
      | _ => Raise JSONDecodeError
      end
  | None => Raise JSONDecodeError
  end.

Definition module : JsonModule :=
  {| json_dumps := dumps; json_loads := loads |}.

End PyJson.

(** The spec's example document, with its keys out of order. *)
Definition example_document : pyobj :=
  PyDict [(py "task", PyStr (py "label")); (py "reward", PyInt 5)].

(** A document holding a [bytes] value. *)
Definition unserializable_document : pyobj :=
  PyDict [(py "task", PyStr (py "label")); (py "blob", PyBytes [x00%byte])].

(* ================================================================== *)
(** * Stand-in primitives for concrete runs                            *)
(* ================================================================== *)

(** Primitives with the right shapes and laws, and no security: the
    public key repeats the private key, agreement is an exclusive or, the
    cipher is a one-octet exclusive or, and the MAC is a prefix hash. *)
Module ToyCrypto.

Definition byte_xor (x y : byte) : byte :=
  byte_of_Z (Z.lxor (Z_of_byte x) (Z_of_byte y)).

Definition pubkey_of (k : bytes) : bytes := k ++ k.

Definition ecdh_agree (priv pub : bytes) : bytes :=
  zip_with byte_xor priv (take PRIVKEY_LEN pub).

Definition kdf (secret : bytes) : bytes * bytes :=
  (SHA1.digest (secret ++ [x01%byte]), SHA1.digest (secret ++ [x02%byte])).

Definition sym_encrypt (k m : bytes) : bytes :=
  map (byte_xor (hd x00%byte k)) m.

Definition sym_decrypt (k c : bytes) : bytes :=
  map (byte_xor (hd x00%byte k)) c.

Definition mac (k m : bytes) : bytes := SHA1.digest (k ++ m).

Definition primitives : EciesPrimitives :=
  Build_EciesPrimitives pubkey_of ecdh_agree kdf sym_encrypt sym_decrypt
                        mac 20.

End ToyCrypto.

(** ** A concrete deployment *)

(** The private key of the module's doctests, and the public key that the
    stand-in primitives give it. *)
Definition example_priv_key : pystr :=
  py "28e516f1e2f99e96a48a23cea1f94ee5f073403a1c68e818263f0eb898f1c8e5".

Definition example_pub_key : pystr := example_priv_key ++ example_priv_key.

(** Another recipient. *)
Definition other_priv_key : pystr :=
  py "486a0621e595dd7fcbe5608cbbeec8f5a8b5cabe7637f11eccfc7acd408c3a0e".

Definition other_pub_key : pystr := other_priv_key ++ other_priv_key.

(** The public key of the module's doctests (128 hexadecimal digits). *)
Definition doctest_pub_key : pystr :=
  py "2dbc2c2c86052702e7c219339514b2e8bd4687ba1236c478ad41b43330b08488c12c8c1797aa181f3a4596a1bd8a0c18344ea44d6655f61fa73e56e743f79e0d".

(** Both stores empty and reachable; the [n]-th ephemeral key is 32 octets
    of value [n+1]; the content store names a block by the hash of its
    content with a prefix. *)
Definition world0 : World := {|
  ipfs_connect_fault := None;
  ipfs_add_fault := None;
  ipfs_cat_fault := None;
  ipfs_cid := fun data => py "Qm" ++ SHA1.hexdigest data;
  ipfs_blocks := ∅;
  s3_client_fault := None;
  s3_put_fault := None;
  s3_get_fault := None;
  s3_objects := ∅;
  entropy := fun n => repeat (byte_of_Z (Z.of_nat (S n))) PRIVKEY_LEN;
  drawn := O;
  calls := [];
  log := []
|}.

(** The same with the IPFS daemon down. *)
Definition world_ipfs_down : World :=
  mkWorld (Some ConnectionError) None None (ipfs_cid world0) ∅
          None None None ∅ (entropy world0) O [] [].

(** The same with the IPFS daemon refusing to add. *)
Definition world_ipfs_readonly : World :=
  mkWorld None (Some ErrorResponse) None (ipfs_cid world0) ∅
          None None None ∅ (entropy world0) O [] [].

(** The same with the bucket refusing writes. *)
Definition world_s3_put_denied : World :=
  mkWorld None None None (ipfs_cid world0) ∅
          None (Some (ClientError (py "AccessDenied"))) None ∅
          (entropy world0) O [] [].

(** The same with no S3 client to be had. *)
Definition world_s3_down : World :=
  mkWorld None None None (ipfs_cid world0) ∅
          (Some BotoCoreError) None None ∅ (entropy world0) O [] [].

(* ================================================================== *)
(** * The specification's vocabulary                                   *)
(* ================================================================== *)

Section SpecTerms.
Context {J : JsonModule} {P : EciesPrimitives}.

(** Canonical Bytes: the UTF-8 encoding of the document serialized with
    keys sorted. *)
Definition canonical_bytes (D : pyobj) : result bytes :=
  rbind (json_dumps D true) utf8_encode.

(** Content Identifier: the hexadecimal SHA-1 digest of the canonical
    bytes. *)
Definition content_identifier (D : pyobj) : result pystr :=
  rbind (canonical_bytes D) (fun data => Return (SHA1.hexdigest data)).

(** A valid key pair, both halves as hexadecimal text: the public half
    is the public key of the private half. *)
Definition valid_key_pair (pub priv : pystr) : Prop :=
  exists k, codecs_decode_hex priv = Return k
            /\ length k = PRIVKEY_LEN
            /\ codecs_decode_hex pub = Return (pubkey_of k).

(** A JSON-compatible document: [json] writes it as a text that can be
    encoded, and reads that text back as a document equal to it. *)
Definition json_compatible (D : pyobj) : Prop :=
  exists s D', json_dumps D true = Return s
               /\ is_raise (utf8_encode s) = false
               /\ json_loads s = Return D'
               /\ py_eqb D' D = true.

End SpecTerms.

(** Both stores answer every request, and the entropy source hands out
    well-formed ephemeral keys. *)
Definition healthy (w : World) : Prop :=
  ipfs_connect_fault w = None /\ ipfs_add_fault w = None
  /\ ipfs_cat_fault w = None /\ s3_client_fault w = None
  /\ s3_put_fault w = None /\ s3_get_fault w = None
  /\ forall n, length (entropy w n) = PRIVKEY_LEN.

(* ================================================================== *)
(** * Vocabulary of the further properties                             *)
(* ================================================================== *)


(** Calls that ask a store to keep something, and calls that go to one
    store or the other. *)
Definition is_write_call (c : call) : bool :=
  match c with
  | CallIpfsAddBytes _ | CallPutObject _ _ _ => true
  | _ => false
  end.

Definition is_ipfs_call (c : call) : bool :=
  match c with
  | CallIpfsConnect _ _ | CallIpfsAddBytes _ | CallIpfsCat _ _ => true
  | _ => false
  end.

Definition is_s3_call (c : call) : bool :=
  match c with
  | CallBoto3Client _ | CallPutObject _ _ _ | CallGetObject _ _ => true
  | _ => false
  end.

(** What the store chosen by the flag holds under a key. *)
Definition held_by {C : Config} (s3 : bool) (w : World) (key : pystr)
    : option bytes :=
  if s3 then s3_objects w !! (ESCROW_BUCKETNAME, key)
  else ipfs_blocks w !! key.

(** The warning of [download]'s handler on the path chosen by the flag. *)
Definition read_failed (s3 : bool) (key private_key : pystr) (e : exn)
    : log_msg :=
  if s3 then Msg_s3_read_failed key private_key e
  else Msg_ipfs_read_failed key private_key e.

(** The records of a log above debug level. *)
Definition above_debug (l : list (level * log_msg)) : list (level * log_msg) :=
  List.filter (fun r => match fst r with LvlDebug => false | _ => true end) l.

(** The worlds after the example document was uploaded for the example
    recipient, through the object store and through the content store. *)
Definition world_s3_stored : World :=
  snd (@upload PyJson.module ToyCrypto.primitives default_config
               example_document example_pub_key (Some true) world0).

Definition world_ipfs_stored : World :=
  snd (@upload PyJson.module ToyCrypto.primitives default_config
               example_document example_pub_key (Some false) world0).

(** The identifier of the example document. *)
Definition example_hash : pystr := py "d5755b503101c0f4cf46c38420ce93d8d1f4fce0".

(** Another document. *)
Definition other_document : pyobj :=
  PyDict [(py "task", PyStr (py "review")); (py "reward", PyInt 7)].

(** A bucket that holds, under the key [broken], an object that decrypts
    for the example recipient to a text that is not JSON. *)
Definition world_s3_not_json : World :=
  match @_encrypt ToyCrypto.primitives default_config
                  example_pub_key (py "not json") world0 with
  | (Return c, w) =>
      with_s3_objects (<[(@ESCROW_BUCKETNAME default_config, py "broken") := c]> ∅) w
  | (Raise _, w) => w
  end.

(* ================================================================== *)
(** * Test vectors                                                    *)
(* ================================================================== *)

(** FIPS 180 vectors for SHA-1. *)
Example sha1_empty :
  SHA1.hexdigest [] = py "da39a3ee5e6b4b0d3255bfef95601890afd80709".
Proof. vm_compute. reflexivity. Qed.

Example sha1_abc :
  SHA1.hexdigest (pyb "abc") = py "a9993e364706816aba3e25717850c26c9cd0d89d".
Proof. vm_compute. reflexivity. Qed.

Example sha1_two_blocks :
  SHA1.hexdigest (pyb "abcdbcdecdefdefgefghfghighijhijkijkljklmklmnlmnomnopnopq")
  = py "84983e441c3bd26ebaae4aa1f95129e5e54670f1".
Proof. vm_compute. reflexivity. Qed.

(** The two doctests of [_decrypt], on the stand-in primitives: the
    matching key gives the message back, another key fails the tag. *)
Example doctest_decrypt_matching_key :
  rbind (fst (@_encrypt ToyCrypto.primitives default_config
                        example_pub_key (py "test") world0))
        (@_decrypt ToyCrypto.primitives default_config example_priv_key)
  = Return (py "test").
Proof. vm_compute. reflexivity. Qed.

Example doctest_decrypt_other_key :
  rbind (fst (@_encrypt ToyCrypto.primitives default_config
                        other_pub_key (py "test") world0))
        (@_decrypt ToyCrypto.primitives default_config example_priv_key)
  = Raise (DecryptionError (py "Failed to verify tag")).
Proof. vm_compute. reflexivity. Qed.

(** The reference [json] on the spec's example and on nested values. *)
Example dumps_example :
  PyJson.dumps example_document true
  = Return (pyq "{'reward': 5, 'task': 'label'}").
Proof. vm_compute. reflexivity. Qed.

Example loads_dumps_example :
  rbind (PyJson.dumps example_document true) PyJson.loads
  = Return (PyDict [(py "reward", PyInt 5); (py "task", PyStr (py "label"))]).
Proof. vm_compute. reflexivity. Qed.

Example dumps_nested :
  rbind (PyJson.dumps
           (PyDict [(py "b", PyList [PyInt (-12); PyNone; PyBool true; PyStr [233; 10; 128512]]);
                    (py "a", PyDict [])]) true)
        PyJson.loads
  = Return (PyDict [(py "a", PyDict []);
                    (py "b", PyList [PyInt (-12); PyNone; PyBool true; PyStr [233; 10; 128512]])]).
Proof. vm_compute. reflexivity. Qed.

Example dumps_bytes_raises :
  is_raise (PyJson.dumps (PyDict [(py "blob", PyBytes [x00])]) true) = true.
Proof. reflexivity. Qed.

(* ================================================================== *)
(** * Octets, hexadecimal text and UTF-8                               *)
(* ================================================================== *)

(** Let [lia] see through division and remainder by constants. *)
Ltac Zify.zify_post_hook ::= Z.div_mod_to_equations.

Lemma Z_of_byte_range (b : byte) : 0 <= Z_of_byte b < 256.
Proof.
  unfold Z_of_byte. pose proof (Byte.to_N_bounded b) as H. lia.
Qed.

Lemma Z_of_byte_of_Z (z : Z) : 0 <= z < 256 -> Z_of_byte (byte_of_Z z) = z.
Proof.
  intros Hz. unfold byte_of_Z, Z_of_byte.
  rewrite Z.mod_small by lia.
  destruct (Byte.of_N (Z.to_N z)) as [b|] eqn:E.
  - apply Byte.to_of_N in E. rewrite E. lia.
  - apply Byte.of_N_None_iff in E. lia.
Qed.

Lemma byte_of_Z_of_byte (b : byte) : byte_of_Z (Z_of_byte b) = b.
Proof.
  unfold byte_of_Z, Z_of_byte.
  pose proof (Byte.to_N_bounded b) as H.
  rewrite Z.mod_small by lia. rewrite N2Z.id, Byte.of_to_N. reflexivity.
Qed.

Lemma hex_digit_lower (n : Z) : 0 <= n < 16 -> is_lower_hex (hex_digit n) = true.
Proof.
  intros Hn. unfold is_lower_hex, hex_digit.
  destruct (n <? 10) eqn:E; [apply Z.ltb_lt in E | apply Z.ltb_ge in E].
  - apply orb_true_iff. left. apply andb_true_iff. split; lia.
  - apply orb_true_iff. right. apply andb_true_iff. split; lia.
Qed.

Lemma hexlify_length (b : bytes) : length (hexlify b) = (2 * length b)%nat.
Proof.
  unfold hexlify. induction b as [|x b IH]; simpl; [reflexivity|].
  rewrite IH. lia.
Qed.

Lemma hexlify_lower (b : bytes) : Forall (fun c => is_lower_hex c = true) (hexlify b).
Proof.
  unfold hexlify. induction b as [|x b IH]; simpl; [constructor|].
  pose proof (Z_of_byte_range x) as Hx.
  constructor; [apply hex_digit_lower; lia|].
  constructor; [apply hex_digit_lower; lia|].
  exact IH.
Qed.

Lemma hex_val_digit (n : Z) : 0 <= n < 16 -> hex_val (hex_digit n) = Some n.
Proof.
  intros Hn. unfold hex_val, hex_digit.
  destruct (n <? 10) eqn:E; [apply Z.ltb_lt in E | apply Z.ltb_ge in E].
  - replace ((48 <=? 48 + n) && (48 + n <=? 57)) with true
      by (symmetry; apply andb_true_iff; split; lia).
    f_equal. lia.
  - replace ((48 <=? 87 + n) && (87 + n <=? 57)) with false
      by (symmetry; apply andb_false_iff; right; lia).
    replace ((97 <=? 87 + n) && (87 + n <=? 102)) with true
      by (symmetry; apply andb_true_iff; split; lia).
    f_equal. lia.
Qed.

(** Decoding the hexadecimal text of a byte string gives it back. *)
Lemma codecs_decode_hex_hexlify (b : bytes) : codecs_decode_hex (hexlify b) = Return b.
Proof.
  unfold hexlify. induction b as [|x b IH]; [reflexivity|].
  pose proof (Z_of_byte_range x) as Hx.
  cbn [flat_map app codecs_decode_hex].
  rewrite !hex_val_digit by lia. rewrite IH. cbn [rbind].
  do 2 f_equal.
  replace (16 * (Z_of_byte x / 16) + Z_of_byte x mod 16) with (Z_of_byte x) by lia.
  apply byte_of_Z_of_byte.
Qed.

Lemma bool_guard_false_and (a b : bool) : a = false \/ b = false -> a && b = false.
Proof. intros [->| ->]; [reflexivity | apply andb_false_r]. Qed.

Lemma leb_ltb_true (a b c : Z) : a <= b < c -> (a <=? b) && (b <? c) = true.
Proof. intros H. apply andb_true_iff. split; [apply Z.leb_le | apply Z.ltb_lt]; lia. Qed.

Lemma leb_ltb_false (a b c : Z) : b < a \/ c <= b -> (a <=? b) && (b <? c) = false.
Proof.
  intros H. apply bool_guard_false_and.
  destruct H; [left; apply Z.leb_gt | right; apply Z.ltb_ge]; lia.
Qed.

Lemma leb_leb_true (a b c : Z) : a <= b <= c -> (a <=? b) && (b <=? c) = true.
Proof. intros H. apply andb_true_iff. split; apply Z.leb_le; lia. Qed.

Lemma leb_leb_false (a b c : Z) : b < a \/ c < b -> (a <=? b) && (b <=? c) = false.
Proof.
  intros H. apply bool_guard_false_and.
  destruct H; [left | right]; apply Z.leb_gt; lia.
Qed.

Lemma is_cont_true (x : Z) : 128 <= x < 192 -> is_cont x = true.
Proof. apply leb_ltb_true. Qed.

(** One code point: what the encoder writes, the decoder reads as that
    code point and goes on with the rest. *)
Lemma utf8_decode_encode_char (c : Z) (hd tl : bytes) :
  utf8_encode_char c = Return hd ->
  utf8_decode (hd ++ tl) = rbind (utf8_decode tl) (fun t => Return (c :: t)).
Proof.
  unfold utf8_encode_char. intros H.
  destruct ((0 <=? c) && (c <? 128)) eqn:E1.
  { apply andb_true_iff in E1 as [A B]. apply Z.leb_le in A. apply Z.ltb_lt in B.
    injection H as <-. cbn [app utf8_decode].
    rewrite Z_of_byte_of_Z by lia.
    replace (c <? 128) with true by (symmetry; apply Z.ltb_lt; lia).
    reflexivity. }
  destruct ((128 <=? c) && (c <? 2048)) eqn:E2.
  { apply andb_true_iff in E2 as [A B]. apply Z.leb_le in A. apply Z.ltb_lt in B.
    injection H as <-. cbn [app utf8_decode].
    rewrite !Z_of_byte_of_Z by lia.
    replace (192 + c / 64 <? 128) with false by (symmetry; apply Z.ltb_ge; lia).
    rewrite leb_ltb_true by lia. rewrite is_cont_true by lia.
    replace ((192 + c / 64 - 192) * 64 + (128 + c mod 64 - 128)) with c by lia.
    reflexivity. }
  destruct ((55296 <=? c) && (c <=? 57343)) eqn:E3; [discriminate|].
  destruct ((2048 <=? c) && (c <? 65536)) eqn:E4.
  { apply andb_true_iff in E4 as [A B]. apply Z.leb_le in A. apply Z.ltb_lt in B.
    injection H as <-. cbn [app utf8_decode].
    rewrite !Z_of_byte_of_Z by lia.
    replace (224 + c / 4096 <? 128) with false by (symmetry; apply Z.ltb_ge; lia).
    rewrite (leb_ltb_false 194 _ 224) by lia.
    rewrite (leb_ltb_true 224 _ 240) by lia.
    rewrite !is_cont_true by lia.
    replace ((224 + c / 4096 - 224) * 4096 + (128 + (c / 64) mod 64 - 128) * 64
             + (128 + c mod 64 - 128)) with c by lia.
    replace (2048 <=? c) with true by (symmetry; apply Z.leb_le; lia).
    rewrite E3. reflexivity. }
  destruct ((65536 <=? c) && (c <=? 1114111)) eqn:E5; [|discriminate].
  apply andb_true_iff in E5 as [A B]. apply Z.leb_le in A. apply Z.leb_le in B.
  injection H as <-. cbn [app utf8_decode].
  rewrite !Z_of_byte_of_Z by lia.
  replace (240 + c / 262144 <? 128) with false by (symmetry; apply Z.ltb_ge; lia).
  rewrite (leb_ltb_false 194 _ 224) by lia.
  rewrite (leb_ltb_false 224 _ 240) by lia.
  rewrite (leb_ltb_true 240 _ 245) by lia.
  rewrite !is_cont_true by lia.
  replace ((240 + c / 262144 - 240) * 262144 + (128 + (c / 4096) mod 64 - 128) * 4096
           + (128 + (c / 64) mod 64 - 128) * 64 + (128 + c mod 64 - 128)) with c by lia.
  replace (65536 <=? c) with true by (symmetry; apply Z.leb_le; lia).
  replace (c <=? 1114111) with true by (symmetry; apply Z.leb_le; lia).
  reflexivity.
Qed.

(** [s.encode('utf-8').decode('utf-8') == s] whenever [s] can be encoded. *)
Lemma utf8_decode_encode (s : pystr) (b : bytes) :
  utf8_encode s = Return b -> utf8_decode b = Return s.
Proof.
  revert b. induction s as [|c s IH]; intros b H.
  - injection H as <-. reflexivity.
  - cbn [utf8_encode] in H.
    destruct (utf8_encode_char c) as [e|hd] eqn:Ec; [discriminate|].
    destruct (utf8_encode s) as [e|tl] eqn:Es; [discriminate|].
    cbn [rbind] in H. injection H as <-.
    rewrite (utf8_decode_encode_char c hd tl Ec), (IH tl eq_refl).
    reflexivity.
Qed.

(* ================================================================== *)
(** * The content identifier                                           *)
(* ================================================================== *)

#[global] Arguments SHA1.digest : simpl never.
#[global] Arguments SHA1.hexdigest : simpl never.

Lemma sha1_digest_length (data : bytes) : length (SHA1.digest data) = 20%nat.
Proof. unfold SHA1.digest. cbv zeta. rewrite !length_app. reflexivity. Qed.

Lemma sha1_hexdigest_length (data : bytes) : length (SHA1.hexdigest data) = 40%nat.
Proof. unfold SHA1.hexdigest. rewrite hexlify_length, sha1_digest_length. reflexivity. Qed.

Lemma sha1_hexdigest_lower (data : bytes) :
  Forall (fun c => is_lower_hex c = true) (SHA1.hexdigest data).
Proof. apply hexlify_lower. Qed.

(* ================================================================== *)
(** * Running the monad                                                *)
(* ================================================================== *)

Lemma rbind_Return_inv {A B} (r : result A) (k : A -> result B) (b : B) :
  rbind r k = Return b -> exists a, r = Return a /\ k a = Return b.
Proof. destruct r as [e|a]; [discriminate|]. intros H. exists a. auto. Qed.

Lemma is_raise_false {A} (r : result A) : is_raise r = false -> exists a, r = Return a.
Proof. destruct r as [e|a]; [discriminate|]. eauto. Qed.

(** How [bind] and [try_except] run, given how their first part runs. *)
Lemma bind_Return {A B} (m : M A) (k : A -> M B) (w w' : World) (a : A) :
  m w = (Return a, w') -> bind m k w = k a w'.
Proof. unfold bind. intros ->. reflexivity. Qed.

Lemma bind_Raise {A B} (m : M A) (k : A -> M B) (w w' : World) (e : exn) :
  m w = (Raise e, w') -> bind m k w = (Raise e, w').
Proof. unfold bind. intros ->. reflexivity. Qed.

Lemma try_except_Return {A} (body : M A) (handler : exn -> M A)
    (w w' : World) (a : A) :
  body w = (Return a, w') -> try_except body handler w = (Return a, w').
Proof. unfold try_except. intros ->. reflexivity. Qed.

Lemma try_except_Raise {A} (body : M A) (handler : exn -> M A)
    (w w' : World) (e : exn) :
  body w = (Raise e, w') -> try_except body handler w = handler e w'.
Proof. unfold try_except. intros ->. reflexivity. Qed.

(** A handler that logs and re-raises lets the exception through. *)
Lemma try_except_reraise {A} (body : M A) (lvl : level) (msg : exn -> log_msg)
    (w w' : World) (e : exn) :
  body w = (Raise e, w') ->
  try_except body (fun e => LOG_emit lvl (msg e) ;;; raise e) w
  = (Raise e, with_log (lvl, msg e) w').
Proof. intros H. rewrite (try_except_Raise _ _ _ _ _ H). reflexivity. Qed.

(** A handler that only logs turns every exception of the body into a
    normal completion: what follows the [try] statement runs all the same. *)
Lemma try_except_swallow {B} (body : M unit) (msg : exn -> log_msg)
    (k : M B) (w : World) :
  exists w', (try_except body (fun e => LOG_warning (msg e)) ;;; k) w = k w'.
Proof.
  unfold bind, try_except.
  destruct (body w) as [[e|[]] w1]; cbn; eauto.
Qed.

Section StorageFacts.
Context {J : JsonModule} {P : EciesPrimitives} {C : Config}.

(** The content identifier splits into its stages. *)
Lemma content_identifier_inv (D : pyobj) (h : pystr) :
  content_identifier D = Return h ->
  exists s data, json_dumps D true = Return s
                 /\ utf8_encode s = Return data
                 /\ h = SHA1.hexdigest data.
Proof.
  unfold content_identifier, canonical_bytes. intros H.
  apply rbind_Return_inv in H as (data & H & Hh).
  apply rbind_Return_inv in H as (s & Hs & Hd).
  exists s, data. repeat split; congruence.
Qed.

Lemma content_identifier_intro (D : pyobj) (s : pystr) (data : bytes) :
  json_dumps D true = Return s -> utf8_encode s = Return data ->
  content_identifier D = Return (SHA1.hexdigest data).
Proof.
  intros Hs Hd. unfold content_identifier, canonical_bytes.
  rewrite Hs. cbn [rbind]. rewrite Hd. reflexivity.
Qed.

(** ** The first two statements of [upload] *)

Lemma upload_dumps_raises (D : pyobj) (public_key : pystr) (s3 : option bool)
    (w : World) (e : exn) :
  json_dumps D true = Raise e ->
  upload D public_key s3 w
  = (Raise e, with_log (LvlError, Msg_cant_extract_json) w).
Proof.
  intros H. unfold upload. cbv zeta.
  apply bind_Raise. apply try_except_reraise.
  unfold lift. rewrite H. reflexivity.
Qed.

Lemma upload_encode_raises (D : pyobj) (public_key : pystr) (s3 : option bool)
    (w : World) (s : pystr) (e : exn) :
  json_dumps D true = Return s -> utf8_encode s = Raise e ->
  upload D public_key s3 w = (Raise e, w).
Proof.
  intros Hs He. unfold upload. cbv zeta.
  erewrite bind_Return
    by (apply try_except_Return; unfold lift; rewrite Hs; reflexivity).
  apply bind_Raise. unfold lift. rewrite He. reflexivity.
Qed.

(** Whenever [upload] returns, the content identifier exists and is the
    first component. *)
Lemma upload_returns_identifier (D : pyobj) (public_key : pystr)
    (s3 : option bool) (w w' : World) (h k : pystr) :
  upload D public_key s3 w = (Return (h, k), w') ->
  content_identifier D = Return h.
Proof.
  intros H.
  destruct (json_dumps D true) as [e|s] eqn:Hs.
  { rewrite (upload_dumps_raises _ _ _ _ _ Hs) in H. discriminate. }
  destruct (utf8_encode s) as [e|data] eqn:Hd.
  { rewrite (upload_encode_raises _ _ _ _ _ _ Hs Hd) in H. discriminate. }
  rewrite (content_identifier_intro _ _ _ Hs Hd). f_equal.
  revert H. unfold upload. cbv zeta.
  erewrite bind_Return
    by (apply try_except_Return; unfold lift; rewrite Hs; reflexivity).
  erewrite bind_Return by (unfold lift; rewrite Hd; reflexivity).
  destruct (negb (default true s3)).
  - unfold try_except, bind.
    repeat match goal with
           | |- context [match ?m with _ => _ end] =>
               lazymatch m with
               | context [match _ with _ => _ end] => fail
               | _ => destruct m as [[?|?] ?] eqn:?
               end
           end; unfold ret, raise in *; intros; congruence.
  - destruct (try_except_swallow
                (BOTO3_CLIENT <- _connect_s3 ;;
                 encrypted_msg <- _encrypt public_key s ;;
                 put_object BOTO3_CLIENT ESCROW_BUCKETNAME
                            (SHA1.hexdigest data) encrypted_msg ;;;
                 LOG_debug (Msg_uploaded_to_s3 (SHA1.hexdigest data)))
                (fun e => Msg_s3_upload_failed (SHA1.hexdigest data) e)
                (ret (SHA1.hexdigest data, SHA1.hexdigest data)) w)
      as [w1 Hw1].
    rewrite Hw1. unfold ret. congruence.
Qed.

(** ** How the helpers run *)

Lemma _connect_s3_run (w : World) :
  _connect_s3 w
  = match s3_client_fault w with
    | Some e =>
        (Raise e,
         with_log (LvlError, Msg_s3_connection_failed e)
                  (with_call (CallBoto3Client ESCROW_ENDPOINT_URL) w))
    | None =>
        (Return (mkS3Client ESCROW_AWS_ACCESS_KEY_ID
                            ESCROW_AWS_SECRET_ACCESS_KEY ESCROW_ENDPOINT_URL),
         with_call (CallBoto3Client ESCROW_ENDPOINT_URL) w)
    end.
Proof.
  unfold _connect_s3, try_except, boto3_client.
  destruct (s3_client_fault w); reflexivity.
Qed.

Lemma _connect_run (host : pystr) (port : Z) (w : World) :
  _connect host port w
  = match ipfs_connect_fault w with
    | Some e =>
        (Raise e,
         with_log (LvlError, Msg_ipfs_connection_failed e)
                  (with_call (CallIpfsConnect host port) w))
    | None =>
        (Return (mkClient host port), with_call (CallIpfsConnect host port) w)
    end.
Proof.
  unfold _connect, try_except, bind, ipfshttpclient_connect.
  destruct (ipfs_connect_fault w); reflexivity.
Qed.

Lemma _encrypt_run (public_key msg : pystr) (w : World) :
  _encrypt public_key msg w
  = match rbind (codecs_decode_hex public_key) keys_PublicKey with
    | Raise e => (Raise e, w)
    | Return pub_key =>
        match utf8_encode msg with
        | Raise e => (Raise e, w)
        | Return msg_bytes =>
            (Return (ecies_encrypt_with (mkPrivateKey (entropy w (drawn w)))
                                        msg_bytes pub_key SHARED_MAC_DATA),
             with_drawn (S (drawn w)) w)
        end
    end.
Proof.
  unfold _encrypt, bind, lift.
  destruct (rbind (codecs_decode_hex public_key) keys_PublicKey); [reflexivity|].
  destruct (utf8_encode msg); reflexivity.
Qed.

(** [_encrypt] touches nothing but the entropy counter. *)
Lemma _encrypt_world (public_key msg : pystr) (w w' : World) (r : result bytes) :
  _encrypt public_key msg w = (r, w') ->
  w' = w \/ w' = with_drawn (S (drawn w)) w.
Proof.
  rewrite _encrypt_run.
  destruct (rbind (codecs_decode_hex public_key) keys_PublicKey);
    [intros [= _ <-]; auto|].
  destruct (utf8_encode msg); intros [= _ <-]; auto.
Qed.

(** [_decrypt] hands on the library's exception as it is. *)
Lemma _decrypt_forwards (private_key : pystr) (k : bytes) (msg : bytes) (e : exn) :
  codecs_decode_hex private_key = Return k ->
  length k = PRIVKEY_LEN ->
  ecies_decrypt msg (mkPrivateKey k) SHARED_MAC_DATA = Raise e ->
  _decrypt private_key msg = Raise e.
Proof.
  intros Hk Hlen He. unfold _decrypt, keys_PrivateKey.
  rewrite Hk. cbn [rbind]. rewrite Hlen, Nat.eqb_refl. cbn [rbind].
  rewrite He. reflexivity.
Qed.

End StorageFacts.

(* ================================================================== *)
(** * The encryption scheme                                            *)
(* ================================================================== *)

Section EciesFacts.
Context {P : EciesPrimitives} {L : EciesLaws P}.

(** The three parts of a message are read back as they were written. *)
Lemma ecies_message_parts (R tag ct : bytes) :
  length R = PUBKEY_LEN -> length tag = TAG_LEN ->
  take PUBKEY_LEN (R ++ tag ++ ct) = R
  /\ take TAG_LEN (drop PUBKEY_LEN (R ++ tag ++ ct)) = tag
  /\ drop (PUBKEY_LEN + TAG_LEN) (R ++ tag ++ ct) = ct.
Proof.
  intros HR Ht. repeat split.
  - rewrite <- HR. apply take_app_length.
  - rewrite <- HR, drop_app_length, <- Ht. apply take_app_length.
  - rewrite <- drop_drop, <- HR, drop_app_length, <- Ht. apply drop_app_length.
Qed.

(** Decryption with the matching private key and the same shared MAC
    data undoes encryption, whatever the ephemeral key was. *)
Lemma ecies_decrypt_encrypt (ephemeral k data shared_mac_data : bytes) :
  length ephemeral = PRIVKEY_LEN -> length k = PRIVKEY_LEN ->
  ecies_decrypt
    (ecies_encrypt_with (mkPrivateKey ephemeral) data
                        (mkPublicKey (pubkey_of k)) shared_mac_data)
    (mkPrivateKey k) shared_mac_data
  = Return data.
Proof.
  intros He Hk. unfold ecies_decrypt, ecies_encrypt_with.
  cbn [privkey_bytes pubkey_bytes].
  set (R := pubkey_of ephemeral).
  set (key := kdf (ecdh_agree ephemeral (pubkey_of k))).
  set (ct := sym_encrypt (fst key) data).
  set (tag := mac (snd key) (R ++ ct ++ shared_mac_data)).
  assert (HR : length R = PUBKEY_LEN) by (apply pubkey_of_length; exact He).
  assert (Ht : length tag = TAG_LEN) by apply mac_length.
  destruct (ecies_message_parts R tag ct HR Ht) as (E1 & E2 & E3).
  rewrite E1, E2, E3.
  replace (length (R ++ tag ++ ct) <? PUBKEY_LEN + TAG_LEN)%nat with false
    by (symmetry; apply Nat.ltb_ge; rewrite !length_app; lia).
  replace (kdf (ecdh_agree k R)) with key
    by (subst key R; rewrite (ecdh_agree_sym k ephemeral Hk He); reflexivity).
  fold tag. rewrite bool_decide_eq_true_2 by reflexivity.
  subst ct. rewrite sym_decrypt_encrypt. reflexivity.
Qed.

(** A plaintext comes out only of a message whose tag verifies under the
    key derived from the presented private key and under the local shared
    MAC data; every other message raises [DecryptionError]. *)
Lemma ecies_decrypt_verifies_tag (data : bytes) (privkey : PrivateKey)
    (shared_mac_data : bytes) :
  let ephem_pubkey := take PUBKEY_LEN data in
  let tag := take TAG_LEN (drop PUBKEY_LEN data) in
  let ciphertext := drop (PUBKEY_LEN + TAG_LEN) data in
  let key := kdf (ecdh_agree (privkey_bytes privkey) ephem_pubkey) in
  if bool_decide (PUBKEY_LEN + TAG_LEN <= length data
                  /\ mac (snd key) (ephem_pubkey ++ ciphertext ++ shared_mac_data) = tag)%nat
  then ecies_decrypt data privkey shared_mac_data
       = Return (sym_decrypt (fst key) ciphertext)
  else ecies_decrypt data privkey shared_mac_data
       = Raise (DecryptionError (py "Failed to verify tag")).
Proof.
  cbv zeta. unfold ecies_decrypt.
  destruct (length data <? PUBKEY_LEN + TAG_LEN)%nat eqn:E.
  - apply Nat.ltb_lt in E. rewrite bool_decide_eq_false_2 by lia. reflexivity.
  - apply Nat.ltb_ge in E. case_bool_decide as H1; case_bool_decide as H2;
      try reflexivity; exfalso; tauto.
Qed.

(** A message carries the public half of its ephemeral key up front, so
    different ephemeral keys give different messages. *)
Lemma ecies_encrypt_with_inj (e1 e2 data : bytes) (pub : PublicKey)
    (shared_mac_data : bytes) :
  length e1 = PRIVKEY_LEN -> length e2 = PRIVKEY_LEN ->
  ecies_encrypt_with (mkPrivateKey e1) data pub shared_mac_data
  = ecies_encrypt_with (mkPrivateKey e2) data pub shared_mac_data ->
  e1 = e2.
Proof.
  intros H1 H2 H. unfold ecies_encrypt_with in H. cbn [privkey_bytes] in H.
  apply app_inj_1 in H as [H _].
  - apply pubkey_of_inj; assumption.
  - rewrite !pubkey_of_length by assumption. reflexivity.
Qed.

Context {J : JsonModule} {C : Config}.

(** The public key of a valid pair is accepted by [keys.PublicKey]. *)
Lemma valid_key_pair_public (pub priv : pystr) :
  valid_key_pair pub priv ->
  exists k, codecs_decode_hex priv = Return k /\ length k = PRIVKEY_LEN
            /\ rbind (codecs_decode_hex pub) keys_PublicKey
               = Return (mkPublicKey (pubkey_of k)).
Proof.
  intros (k & Hpriv & Hlen & Hpub). exists k. repeat split; try assumption.
  rewrite Hpub. cbn [rbind]. unfold keys_PublicKey.
  rewrite (pubkey_of_length k Hlen), Nat.eqb_refl. reflexivity.
Qed.

(** [_decrypt(priv, c) == msg] for the [c] that [_encrypt(pub, msg)]
    produces from any ephemeral key. *)
Lemma _decrypt_ecies_encrypt (priv msg : pystr) (k ephemeral data : bytes) :
  codecs_decode_hex priv = Return k -> length k = PRIVKEY_LEN ->
  length ephemeral = PRIVKEY_LEN ->
  utf8_encode msg = Return data ->
  _decrypt priv (ecies_encrypt_with (mkPrivateKey ephemeral) data
                                    (mkPublicKey (pubkey_of k)) SHARED_MAC_DATA)
  = Return msg.
Proof.
  intros Hk Hlen He Hd. unfold _decrypt, keys_PrivateKey.
  rewrite Hk. cbn [rbind]. rewrite Hlen, Nat.eqb_refl. cbn [rbind].
  rewrite (ecies_decrypt_encrypt ephemeral k data SHARED_MAC_DATA He Hlen).
  cbn [rbind]. apply utf8_decode_encode. exact Hd.
Qed.

End EciesFacts.

(* ================================================================== *)
(** * upload and download, run by run                                  *)
(* ================================================================== *)

Section Runs.
Context {J : JsonModule} {P : EciesPrimitives} {C : Config}.

Lemma LOG_debug_run (msg : log_msg) (w : World) :
  LOG_debug msg w = (Return tt, debug_logged msg w).
Proof. unfold LOG_debug, debug_logged. destruct DEBUG; reflexivity. Qed.

(** Unfolding of the first two statements of [upload] once they are
    known to succeed. *)
Ltac upload_prefix Hs Hd :=
  unfold upload; cbv zeta; cbn [from_option id negb];
  erewrite bind_Return
    by (apply try_except_Return; unfold lift; rewrite Hs; reflexivity);
  erewrite bind_Return by (unfold lift; rewrite Hd; reflexivity).

(** ** Object store *)

(** The client is built, the key is accepted and the put succeeds. *)
Lemma upload_s3_stored (D : pyobj) (public_key : pystr) (w : World)
    (s : pystr) (data : bytes) (pub_key : PublicKey) :
  json_dumps D true = Return s -> utf8_encode s = Return data ->
  rbind (codecs_decode_hex public_key) keys_PublicKey = Return pub_key ->
  s3_client_fault w = None -> s3_put_fault w = None ->
  let h := SHA1.hexdigest data in
  let c := ecies_encrypt_with (mkPrivateKey (entropy w (drawn w))) data
                              pub_key SHARED_MAC_DATA in
  upload D public_key (Some true) w
  = (Return (h, h),
     debug_logged (Msg_uploaded_to_s3 h)
       (with_s3_objects (<[(ESCROW_BUCKETNAME, h) := c]> (s3_objects w))
          (with_call (CallPutObject ESCROW_BUCKETNAME h c)
             (with_drawn (S (drawn w))
                (with_call (CallBoto3Client ESCROW_ENDPOINT_URL) w))))).
Proof.
  intros Hs Hd Hpub Hc Hp h c. upload_prefix Hs Hd.
  unfold bind, try_except, ret.
  rewrite _connect_s3_run, Hc, _encrypt_run, Hpub, Hd.
  unfold put_object. cbn [s3_put_fault with_call with_drawn].
  rewrite Hp, LOG_debug_run. reflexivity.
Qed.

(** The client is built, the key is accepted and the put raises [e]. *)
Lemma upload_s3_put_fails (D : pyobj) (public_key : pystr) (w : World)
    (s : pystr) (data : bytes) (pub_key : PublicKey) (e : exn) :
  json_dumps D true = Return s -> utf8_encode s = Return data ->
  rbind (codecs_decode_hex public_key) keys_PublicKey = Return pub_key ->
  s3_client_fault w = None -> s3_put_fault w = Some e ->
  let h := SHA1.hexdigest data in
  let c := ecies_encrypt_with (mkPrivateKey (entropy w (drawn w))) data
                              pub_key SHARED_MAC_DATA in
  upload D public_key (Some true) w
  = (Return (h, h),
     with_log (LvlWarning, Msg_s3_upload_failed h e)
       (with_call (CallPutObject ESCROW_BUCKETNAME h c)
          (with_drawn (S (drawn w))
             (with_call (CallBoto3Client ESCROW_ENDPOINT_URL) w)))).
Proof.
  intros Hs Hd Hpub Hc Hp h c. upload_prefix Hs Hd.
  unfold bind, try_except, ret.
  rewrite _connect_s3_run, Hc, _encrypt_run, Hpub, Hd.
  unfold put_object. cbn [s3_put_fault with_call with_drawn].
  rewrite Hp. reflexivity.
Qed.

(** The key is refused: nothing is encrypted, nothing is put. *)
Lemma upload_s3_key_refused (D : pyobj) (public_key : pystr) (w : World)
    (s : pystr) (data : bytes) (e : exn) :
  json_dumps D true = Return s -> utf8_encode s = Return data ->
  rbind (codecs_decode_hex public_key) keys_PublicKey = Raise e ->
  s3_client_fault w = None ->
  let h := SHA1.hexdigest data in
  upload D public_key (Some true) w
  = (Return (h, h),
     with_log (LvlWarning, Msg_s3_upload_failed h e)
       (with_call (CallBoto3Client ESCROW_ENDPOINT_URL) w)).
Proof.
  intros Hs Hd Hpub Hc h. upload_prefix Hs Hd.
  unfold bind, try_except, ret.
  rewrite _connect_s3_run, Hc, _encrypt_run, Hpub. reflexivity.
Qed.

(** Whatever happens inside the [try] block, the object-store path
    returns the pair of the identifier with itself. *)
Lemma upload_s3_returns (D : pyobj) (public_key : pystr) (h : pystr) (w : World) :
  content_identifier D = Return h ->
  fst (upload D public_key (Some true) w) = Return (h, h).
Proof.
  intros H. apply content_identifier_inv in H as (s & data & Hs & Hd & ->).
  upload_prefix Hs Hd.
  match goal with
  | |- fst ((try_except ?body (fun e => LOG_warning (?m e)) ;;; ?k) w) = _ =>
      destruct (try_except_swallow body (fun e => m e) k w) as [w1 ->]
  end.
  reflexivity.
Qed.

(** A stored object is fetched and handed to [_decrypt]; what [_decrypt]
    raises comes out of [download], what it returns is parsed. *)
Lemma download_s3_found (key private_key : pystr) (w : World) (c : bytes) :
  s3_client_fault w = None -> s3_get_fault w = None ->
  s3_objects w !! (ESCROW_BUCKETNAME, key) = Some c ->
  fst (download key private_key (Some true) w)
  = rbind (_decrypt private_key c) json_loads.
Proof.
  intros Hc Hg Hobj. unfold download. cbv zeta. cbn [from_option id negb].
  unfold bind, try_except, ret, lift.
  rewrite LOG_debug_run, _connect_s3_run.
  replace (s3_client_fault (debug_logged (Msg_downloading_s3_key key) w))
    with (@None exn) by (unfold debug_logged; destruct DEBUG; auto).
  unfold get_object.
  replace (s3_get_fault (with_call _ (debug_logged (Msg_downloading_s3_key key) w)))
    with (@None exn) by (unfold debug_logged; destruct DEBUG; auto).
  replace (s3_objects (with_call _ (debug_logged (Msg_downloading_s3_key key) w)))
    with (s3_objects w) by (unfold debug_logged; destruct DEBUG; auto).
  rewrite Hobj. cbn [Body].
  destruct (_decrypt private_key c); reflexivity.
Qed.

(** A key the bucket does not hold: the [ClientError] of [get_object]
    comes out of [download]. *)
Lemma download_s3_missing (key private_key : pystr) (w : World) :
  s3_client_fault w = None -> s3_get_fault w = None ->
  s3_objects w !! (ESCROW_BUCKETNAME, key) = None ->
  fst (download key private_key (Some true) w)
  = Raise (ClientError (py "NoSuchKey")).
Proof.
  intros Hc Hg Hobj. unfold download. cbv zeta. cbn [from_option id negb].
  unfold bind, try_except, ret, lift.
  rewrite LOG_debug_run, _connect_s3_run.
  replace (s3_client_fault (debug_logged (Msg_downloading_s3_key key) w))
    with (@None exn) by (unfold debug_logged; destruct DEBUG; auto).
  unfold get_object.
  replace (s3_get_fault (with_call _ (debug_logged (Msg_downloading_s3_key key) w)))
    with (@None exn) by (unfold debug_logged; destruct DEBUG; auto).
  replace (s3_objects (with_call _ (debug_logged (Msg_downloading_s3_key key) w)))
    with (s3_objects w) by (unfold debug_logged; destruct DEBUG; auto).
  rewrite Hobj. reflexivity.
Qed.

(** ** Distributed content store *)

(** The daemon answers, the key is accepted and the add succeeds. *)
Lemma upload_ipfs_stored (D : pyobj) (public_key : pystr) (w : World)
    (s : pystr) (data : bytes) (pub_key : PublicKey) :
  json_dumps D true = Return s -> utf8_encode s = Return data ->
  rbind (codecs_decode_hex public_key) keys_PublicKey = Return pub_key ->
  ipfs_connect_fault w = None -> ipfs_add_fault w = None ->
  let h := SHA1.hexdigest data in
  let c := ecies_encrypt_with (mkPrivateKey (entropy w (drawn w))) data
                              pub_key SHARED_MAC_DATA in
  let key := ipfs_cid w c in
  upload D public_key (Some false) w
  = (Return (h, key),
     debug_logged (Msg_uploaded_to_ipfs key)
       (with_ipfs_blocks (<[key := c]> (ipfs_blocks w))
          (with_call (CallIpfsAddBytes c)
             (with_drawn (S (drawn w))
                (with_call (CallIpfsConnect IPFS_HOST IPFS_PORT) w))))).
Proof.
  intros Hs Hd Hpub Hc Ha h c key. upload_prefix Hs Hd.
  unfold bind, try_except, ret.
  rewrite _connect_run, Hc, _encrypt_run, Hpub, Hd.
  unfold Client_add_bytes. cbn [ipfs_add_fault with_call with_drawn].
  rewrite Ha, LOG_debug_run. reflexivity.
Qed.

(** The daemon cannot be reached. *)
Lemma upload_ipfs_connect_fails (D : pyobj) (public_key : pystr) (w : World)
    (s : pystr) (data : bytes) (e : exn) :
  json_dumps D true = Return s -> utf8_encode s = Return data ->
  ipfs_connect_fault w = Some e ->
  upload D public_key (Some false) w
  = (Raise e,
     with_log (LvlWarning, Msg_ipfs_add_failed e)
       (with_log (LvlError, Msg_ipfs_connection_failed e)
          (with_call (CallIpfsConnect IPFS_HOST IPFS_PORT) w))).
Proof.
  intros Hs Hd Hc. upload_prefix Hs Hd.
  apply try_except_reraise with (msg := Msg_ipfs_add_failed).
  apply bind_Raise. rewrite _connect_run, Hc. reflexivity.
Qed.

(** The daemon answers and the key is accepted, but the add raises [e]. *)
Lemma upload_ipfs_add_fails (D : pyobj) (public_key : pystr) (w : World)
    (s : pystr) (data : bytes) (pub_key : PublicKey) (e : exn) :
  json_dumps D true = Return s -> utf8_encode s = Return data ->
  rbind (codecs_decode_hex public_key) keys_PublicKey = Return pub_key ->
  ipfs_connect_fault w = None -> ipfs_add_fault w = Some e ->
  let c := ecies_encrypt_with (mkPrivateKey (entropy w (drawn w))) data
                              pub_key SHARED_MAC_DATA in
  upload D public_key (Some false) w
  = (Raise e,
     with_log (LvlWarning, Msg_ipfs_add_failed e)
       (with_call (CallIpfsAddBytes c)
          (with_drawn (S (drawn w))
             (with_call (CallIpfsConnect IPFS_HOST IPFS_PORT) w)))).
Proof.
  intros Hs Hd Hpub Hc Ha c. upload_prefix Hs Hd.
  apply try_except_reraise with (msg := Msg_ipfs_add_failed).
  unfold bind. rewrite _connect_run, Hc, _encrypt_run, Hpub, Hd.
  unfold Client_add_bytes. cbn [ipfs_add_fault with_call with_drawn].
  rewrite Ha. reflexivity.
Qed.

(** The key is refused. *)
Lemma upload_ipfs_key_refused (D : pyobj) (public_key : pystr) (w : World)
    (s : pystr) (data : bytes) (e : exn) :
  json_dumps D true = Return s -> utf8_encode s = Return data ->
  rbind (codecs_decode_hex public_key) keys_PublicKey = Raise e ->
  ipfs_connect_fault w = None ->
  upload D public_key (Some false) w
  = (Raise e,
     with_log (LvlWarning, Msg_ipfs_add_failed e)
       (with_call (CallIpfsConnect IPFS_HOST IPFS_PORT) w)).
Proof.
  intros Hs Hd Hpub Hc. upload_prefix Hs Hd.
  apply try_except_reraise with (msg := Msg_ipfs_add_failed).
  unfold bind. rewrite _connect_run, Hc, _encrypt_run, Hpub. reflexivity.
Qed.

(** On the content-store path, a key that comes back was assigned by the
    store in this call, to a block that the store now holds. *)
Lemma upload_ipfs_returns_inv (D : pyobj) (public_key : pystr) (w w' : World)
    (h k : pystr) :
  upload D public_key (Some false) w = (Return (h, k), w') ->
  ipfs_connect_fault w = None /\ ipfs_add_fault w = None
  /\ exists c, k = ipfs_cid w c /\ ipfs_blocks w' !! k = Some c
               /\ In (CallIpfsAddBytes c) (calls w').
Proof.
  intros H.
  destruct (json_dumps D true) as [e|s] eqn:Hs.
  { rewrite (upload_dumps_raises _ _ _ _ _ Hs) in H. discriminate. }
  destruct (utf8_encode s) as [e|data] eqn:Hd.
  { rewrite (upload_encode_raises _ _ _ _ _ _ Hs Hd) in H. discriminate. }
  destruct (ipfs_connect_fault w) as [e|] eqn:Hc.
  { rewrite (upload_ipfs_connect_fails _ _ _ _ _ _ Hs Hd Hc) in H. discriminate. }
  destruct (rbind (codecs_decode_hex public_key) keys_PublicKey) as [e|pub_key] eqn:Hpub.
  { rewrite (upload_ipfs_key_refused _ _ _ _ _ _ Hs Hd Hpub Hc) in H. discriminate. }
  destruct (ipfs_add_fault w) as [e|] eqn:Ha.
  { rewrite (upload_ipfs_add_fails _ _ _ _ _ _ _ Hs Hd Hpub Hc Ha) in H. discriminate. }
  rewrite (upload_ipfs_stored _ _ _ _ _ _ Hs Hd Hpub Hc Ha) in H.
  injection H as _ <- <-. split; [reflexivity|]. split; [reflexivity|].
  eexists. split; [reflexivity|].
  unfold debug_logged. destruct DEBUG; cbn; (split; [apply lookup_insert_eq | auto]).
Qed.

(** A stored block is fetched and handed to [_decrypt]; what [_decrypt]
    raises comes out of [download], what it returns is parsed. *)
Lemma download_ipfs_found (key private_key : pystr) (w : World) (c : bytes) :
  ipfs_connect_fault w = None -> ipfs_cat_fault w = None ->
  ipfs_blocks w !! key = Some c ->
  fst (download key private_key (Some false) w)
  = rbind (_decrypt private_key c) json_loads.
Proof.
  intros Hc Hg Hobj. unfold download. cbv zeta. cbn [from_option id negb].
  unfold bind, try_except, ret, lift.
  rewrite _connect_run, Hc, LOG_debug_run.
  unfold Client_cat.
  replace (ipfs_cat_fault (debug_logged (Msg_downloading_key key) (with_call _ w)))
    with (@None exn) by (unfold debug_logged; destruct DEBUG; auto).
  replace (ipfs_blocks (debug_logged (Msg_downloading_key key) (with_call _ w)))
    with (ipfs_blocks w) by (unfold debug_logged; destruct DEBUG; auto).
  rewrite Hobj.
  destruct (_decrypt private_key c); reflexivity.
Qed.

(** A failing request of [download] comes out of it, on either path. *)
Lemma download_fault_raises (key private_key : pystr) (w : World) (e : exn) :
  (s3_client_fault w = Some e \/ (s3_client_fault w = None /\ s3_get_fault w = Some e) ->
   fst (download key private_key (Some true) w) = Raise e)
  /\ (ipfs_connect_fault w = Some e
      \/ (ipfs_connect_fault w = None /\ ipfs_cat_fault w = Some e) ->
      fst (download key private_key (Some false) w) = Raise e).
Proof.
  split; intros H; unfold download; cbv zeta; cbn [from_option id negb];
    unfold bind, try_except, ret, lift.
  - rewrite LOG_debug_run, _connect_s3_run. unfold get_object.
    destruct H as [H|[H1 H2]].
    + replace (s3_client_fault (debug_logged (Msg_downloading_s3_key key) w))
        with (Some e) by (unfold debug_logged; destruct DEBUG; auto).
      reflexivity.
    + replace (s3_client_fault (debug_logged (Msg_downloading_s3_key key) w))
        with (@None exn) by (unfold debug_logged; destruct DEBUG; auto).
      replace (s3_get_fault (with_call _ (debug_logged (Msg_downloading_s3_key key) w)))
        with (Some e) by (unfold debug_logged; destruct DEBUG; auto).
      reflexivity.
  - rewrite _connect_run. destruct H as [H|[H1 H2]].
    + rewrite H. reflexivity.
    + rewrite H1, LOG_debug_run. unfold Client_cat.
      replace (ipfs_cat_fault (debug_logged (Msg_downloading_key key) (with_call _ w)))
        with (Some e) by (unfold debug_logged; destruct DEBUG; auto).
      reflexivity.
Qed.

End Runs.

(* ================================================================== *)
(** * The stand-in primitives obey the laws                            *)
(* ================================================================== *)

Lemma Z_lxor_byte_range (a b : Z) :
  0 <= a < 256 -> 0 <= b < 256 -> 0 <= Z.lxor a b < 256.
Proof.
  intros Ha Hb.
  assert (Hn : 0 <= Z.lxor a b) by (apply Z.lxor_nonneg; lia).
  split; [exact Hn|].
  destruct (Z.eq_dec (Z.lxor a b) 0) as [->|Hne]; [lia|].
  change 256 with (2 ^ 8). apply Z.log2_lt_pow2; [lia|].
  pose proof (Z.log2_lxor a b ltac:(lia) ltac:(lia)) as Hl.
  assert (Hla : Z.log2 a < 8).
  { destruct (Z.eq_dec a 0) as [->|]; [cbn; lia|].
    apply Z.log2_lt_pow2; [lia|]. change (2 ^ 8) with 256. lia. }
  assert (Hlb : Z.log2 b < 8).
  { destruct (Z.eq_dec b 0) as [->|]; [cbn; lia|].
    apply Z.log2_lt_pow2; [lia|]. change (2 ^ 8) with 256. lia. }
  lia.
Qed.

Lemma byte_xor_comm (x y : byte) : ToyCrypto.byte_xor x y = ToyCrypto.byte_xor y x.
Proof. unfold ToyCrypto.byte_xor. rewrite Z.lxor_comm. reflexivity. Qed.

Lemma byte_xor_involutive (k x : byte) :
  ToyCrypto.byte_xor k (ToyCrypto.byte_xor k x) = x.
Proof.
  unfold ToyCrypto.byte_xor.
  pose proof (Z_of_byte_range k) as Hk. pose proof (Z_of_byte_range x) as Hx.
  rewrite Z_of_byte_of_Z by (apply Z_lxor_byte_range; assumption).
  rewrite <- Z.lxor_assoc, Z.lxor_nilpotent, Z.lxor_0_l.
  apply byte_of_Z_of_byte.
Qed.

Lemma zip_with_byte_xor_comm (a b : bytes) :
  zip_with ToyCrypto.byte_xor a b = zip_with ToyCrypto.byte_xor b a.
Proof.
  revert b. induction a as [|x a IH]; intros [|y b]; cbn; try reflexivity.
  rewrite byte_xor_comm, IH. reflexivity.
Qed.

Lemma toy_laws : EciesLaws ToyCrypto.primitives.
Proof.
  constructor; cbn.
  - intros k Hk. unfold ToyCrypto.pubkey_of. rewrite length_app, Hk. reflexivity.
  - intros k1 k2 H1 H2 H. unfold ToyCrypto.pubkey_of in H.
    apply app_inj_1 in H as [H _]; [exact H | congruence].
  - intros a b Ha Hb. unfold ToyCrypto.ecdh_agree, ToyCrypto.pubkey_of.
    replace (take PRIVKEY_LEN (b ++ b)) with b
      by (rewrite <- Hb; symmetry; apply take_app_length).
    replace (take PRIVKEY_LEN (a ++ a)) with a
      by (rewrite <- Ha; symmetry; apply take_app_length).
    apply zip_with_byte_xor_comm.
  - intros k m. unfold ToyCrypto.sym_decrypt, ToyCrypto.sym_encrypt.
    induction m as [|x m IH]; cbn; [reflexivity|].
    rewrite byte_xor_involutive. f_equal. exact IH.
  - intros k m. apply sha1_digest_length.
Qed.

Lemma world0_healthy : healthy world0.
Proof. repeat split. Qed.

(* ================================================================== *)
(** * Properties of the storage gateway                                *)
(* ================================================================== *)

(** C1 (round trip).  For a JSON-compatible document [D], a valid key pair
    and a world in which both stores answer: decrypting with the private
    key what [_encrypt] made of the serialization of [D] gives that
    serialization back; and, for either backend and for the default,
    [upload] returns a key under which [download] returns a document equal
    to [D]. *)
Theorem upload_download_round_trip
    {J : JsonModule} {P : EciesPrimitives} {C : Config} {L : EciesLaws P}
    (D : pyobj) (pub priv : pystr) (w : World) :
  json_compatible D -> valid_key_pair pub priv -> healthy w ->
  (exists s c w', json_dumps D true = Return s
                  /\ _encrypt pub s w = (Return c, w')
                  /\ _decrypt priv c = Return s)
  /\ (forall s3 : option bool,
        exists h k w1 D',
          upload D pub s3 w = (Return (h, k), w1)
          /\ fst (download k priv s3 w1) = Return D'
          /\ py_eqb D' D = true).
Proof.
  intros (s & D' & Hs & Henc & Hloads & Heq) Hpair Hw.
  destruct (valid_key_pair_public pub priv Hpair) as (k & Hk & Hlen & Hpub).
  destruct (is_raise_false _ Henc) as [data Hd].
  destruct Hw as (Hic & Hia & Hicat & Hsc & Hsp & Hsg & Hent).
  pose proof (_decrypt_ecies_encrypt priv s k (entropy w (drawn w)) data
                Hk Hlen (Hent _) Hd) as Hdec.
  split.
  - exists s. eexists. eexists. split; [exact Hs|].
    rewrite _encrypt_run, Hpub, Hd. split; [reflexivity | exact Hdec].
  - assert (Hs3 : exists h k0 w1 D'0,
               upload D pub (Some true) w = (Return (h, k0), w1)
               /\ fst (download k0 priv (Some true) w1) = Return D'0
               /\ py_eqb D'0 D = true).
    { eexists. eexists. eexists. exists D'.
      split; [apply (upload_s3_stored D pub w s data _ Hs Hd Hpub Hsc Hsp)|].
      split; [|exact Heq].
      rewrite <- Hloads.
      erewrite download_s3_found; [rewrite Hdec; reflexivity | | | ].
      - unfold debug_logged. destruct DEBUG; exact Hsc.
      - unfold debug_logged. destruct DEBUG; exact Hsg.
      - unfold debug_logged. destruct DEBUG; cbn; apply lookup_insert_eq. }
    intros [[|]|]; [exact Hs3 | | exact Hs3].
    eexists. eexists. eexists. exists D'.
    split; [apply (upload_ipfs_stored D pub w s data _ Hs Hd Hpub Hic Hia)|].
    split; [|exact Heq].
    rewrite <- Hloads.
    erewrite download_ipfs_found; [rewrite Hdec; reflexivity | | | ].
    + unfold debug_logged. destruct DEBUG; exact Hic.
    + unfold debug_logged. destruct DEBUG; exact Hicat.
    + unfold debug_logged. destruct DEBUG; cbn; apply lookup_insert_eq.
Qed.

Lemma example_document_json_compatible :
  @json_compatible PyJson.module example_document.
Proof.
  eexists. eexists.
  split; [vm_compute; reflexivity|].
  split; [vm_compute; reflexivity|].
  split; vm_compute; reflexivity.
Qed.

Lemma example_keys_valid :
  @valid_key_pair ToyCrypto.primitives example_pub_key example_priv_key.
Proof.
  eexists. split; [vm_compute; reflexivity|].
  split; vm_compute; reflexivity.
Qed.

(** The spec's example document goes through both stores and back. *)
Lemma upload_download_round_trip_witness :
  (exists s c w', @json_dumps PyJson.module example_document true = Return s
                  /\ @_encrypt ToyCrypto.primitives default_config
                                example_pub_key s world0 = (Return c, w')
                  /\ @_decrypt ToyCrypto.primitives default_config
                                example_priv_key c = Return s)
  /\ (forall s3 : option bool,
        exists h k w1 D',
          @upload PyJson.module ToyCrypto.primitives default_config
                  example_document example_pub_key s3 world0
          = (Return (h, k), w1)
          /\ fst (@download PyJson.module ToyCrypto.primitives default_config
                             k example_priv_key s3 w1) = Return D'
          /\ py_eqb D' example_document = true).
Proof.
  exact (@upload_download_round_trip PyJson.module ToyCrypto.primitives
           default_config toy_laws example_document example_pub_key
           example_priv_key world0 example_document_json_compatible
           example_keys_valid world0_healthy).
Defined.

(** C3 (identifier on a failed put).  On the object-store path, when the
    client is built, the key is accepted and [put_object] raises [e],
    [upload] still returns the pair made of the content identifier: the
    very value it returns from a world in which the put succeeds.  The
    bucket is as it was, the put was attempted, and the failure is in the
    log as a warning. *)
Theorem upload_s3_failed_put_returns_identifier
    {J : JsonModule} {P : EciesPrimitives} {C : Config}
    (D : pyobj) (public_key : pystr) (pub_key : PublicKey) (h : pystr)
    (w w_ok : World) (e : exn) :
  content_identifier D = Return h ->
  rbind (codecs_decode_hex public_key) keys_PublicKey = Return pub_key ->
  s3_client_fault w = None -> s3_put_fault w = Some e ->
  s3_client_fault w_ok = None -> s3_put_fault w_ok = None ->
  let r := upload D public_key (Some true) w in
  fst r = Return (h, h)
  /\ fst r = fst (upload D public_key (Some true) w_ok)
  /\ s3_objects (snd r) = s3_objects w
  /\ (exists c, calls (snd r)
                = CallPutObject ESCROW_BUCKETNAME h c
                    :: CallBoto3Client ESCROW_ENDPOINT_URL :: calls w)
  /\ log (snd r) = (LvlWarning, Msg_s3_upload_failed h e) :: log w.
Proof.
  intros Hh Hpub Hc Hp Hc' Hp' r. subst r.
  apply content_identifier_inv in Hh as (s & data & Hs & Hd & ->).
  rewrite (upload_s3_put_fails D public_key w s data pub_key e Hs Hd Hpub Hc Hp).
  rewrite (upload_s3_stored D public_key w_ok s data pub_key Hs Hd Hpub Hc' Hp').
  cbn. repeat split. eexists. reflexivity.
Qed.

Lemma example_document_identifier :
  @content_identifier PyJson.module example_document
  = Return (py "d5755b503101c0f4cf46c38420ce93d8d1f4fce0").
Proof. vm_compute. reflexivity. Qed.

Lemma example_pub_key_accepted :
  exists pub_key,
    rbind (codecs_decode_hex example_pub_key) keys_PublicKey = Return pub_key.
Proof. eexists. vm_compute. reflexivity. Qed.

(** The example document, uploaded while the bucket refuses writes. *)
Lemma upload_s3_failed_put_returns_identifier_witness :
  let h := py "d5755b503101c0f4cf46c38420ce93d8d1f4fce0" in
  let r := @upload PyJson.module ToyCrypto.primitives default_config
                   example_document example_pub_key (Some true)
                   world_s3_put_denied in
  fst r = Return (h, h)
  /\ fst r = fst (@upload PyJson.module ToyCrypto.primitives default_config
                          example_document example_pub_key (Some true) world0)
  /\ s3_objects (snd r) = s3_objects world_s3_put_denied
  /\ (exists c, calls (snd r)
                = CallPutObject (@ESCROW_BUCKETNAME default_config) h c
                    :: CallBoto3Client (@ESCROW_ENDPOINT_URL default_config)
                    :: calls world_s3_put_denied)
  /\ log (snd r)
     = (LvlWarning, Msg_s3_upload_failed h (ClientError (py "AccessDenied")))
         :: log world_s3_put_denied.
Proof.
  destruct example_pub_key_accepted as [pub_key Hpub].
  exact (@upload_s3_failed_put_returns_identifier
           PyJson.module ToyCrypto.primitives default_config
           example_document example_pub_key pub_key _
           world_s3_put_denied world0 (ClientError (py "AccessDenied"))
           example_document_identifier Hpub eq_refl eq_refl eq_refl eq_refl).
Defined.

(** C4 (content identity).  Whenever [upload] returns, the first component
    is the lowercase hexadecimal SHA-1 digest, forty characters long, of
    the UTF-8 encoding of the document serialized with sorted keys.  Two
    uploads of one document return the same identifier, whatever the
    recipient keys, the backend flags and the worlds. *)
Theorem content_identifier_depends_only_on_document
    {J : JsonModule} {P : EciesPrimitives} {C : Config}
    (D : pyobj) (public_key1 public_key2 : pystr) (s3_1 s3_2 : option bool)
    (w1 w2 : World) (r1 r2 : pystr * pystr) :
  fst (upload D public_key1 s3_1 w1) = Return r1 ->
  fst (upload D public_key2 s3_2 w2) = Return r2 ->
  fst r1 = fst r2
  /\ (exists s data, json_dumps D true = Return s
                     /\ utf8_encode s = Return data
                     /\ fst r1 = hexlify (SHA1.digest data))
  /\ length (fst r1) = 40%nat
  /\ Forall (fun c => is_lower_hex c = true) (fst r1).
Proof.
  intros H1 H2.
  destruct (upload D public_key1 s3_1 w1) as [x1 w1'] eqn:E1.
  destruct (upload D public_key2 s3_2 w2) as [x2 w2'] eqn:E2.
  cbn [fst] in H1, H2. subst x1 x2. destruct r1 as [h1 k1], r2 as [h2 k2].
  apply upload_returns_identifier in E1, E2. cbn [fst].
  assert (h1 = h2) as <- by congruence.
  apply content_identifier_inv in E1 as (s & data & Hs & Hd & ->).
  split; [reflexivity|].
  split; [exists s, data; auto|].
  split; [apply sha1_hexdigest_length | apply sha1_hexdigest_lower].
Qed.

(** One document, two recipients, two backends. *)
Lemma content_identifier_depends_only_on_document_witness :
  exists r1 r2,
    fst (@upload PyJson.module ToyCrypto.primitives default_config
                 example_document example_pub_key None world0) = Return r1
    /\ fst (@upload PyJson.module ToyCrypto.primitives default_config
                    example_document other_pub_key (Some false) world0)
       = Return r2
    /\ fst r1 = fst r2 /\ length (fst r1) = 40%nat.
Proof.
  eexists. eexists.
  assert (H1 : fst (@upload PyJson.module ToyCrypto.primitives default_config
                            example_document example_pub_key None world0)
               = Return _) by (vm_compute; reflexivity).
  assert (H2 : fst (@upload PyJson.module ToyCrypto.primitives default_config
                            example_document other_pub_key (Some false) world0)
               = Return _) by (vm_compute; reflexivity).
  split; [exact H1|]. split; [exact H2|].
  destruct (@content_identifier_depends_only_on_document
              PyJson.module ToyCrypto.primitives default_config
              example_document example_pub_key other_pub_key None (Some false)
              world0 world0 _ _ H1 H2) as (Heq & _ & Hlen & _).
  split; [exact Heq | exact Hlen].
Defined.

(** C5 (the object store is keyed by content).  With the object-store
    flag, when the client is built, the key is accepted and the put
    succeeds, [upload] puts the ciphertext of the canonical bytes into the
    bucket under the content identifier and returns the identifier twice.
    And whenever an object-store upload of the document returns at all,
    in any world and for any key, its two components are equal. *)
Theorem object_store_key_is_content_identifier
    {J : JsonModule} {P : EciesPrimitives} {C : Config}
    (D : pyobj) (public_key : pystr) (pub_key : PublicKey) (h : pystr)
    (w : World) :
  content_identifier D = Return h ->
  rbind (codecs_decode_hex public_key) keys_PublicKey = Return pub_key ->
  s3_client_fault w = None -> s3_put_fault w = None ->
  let r := upload D public_key (Some true) w in
  fst r = Return (h, h)
  /\ (exists data c,
        canonical_bytes D = Return data
        /\ c = ecies_encrypt_with (mkPrivateKey (entropy w (drawn w))) data
                                  pub_key SHARED_MAC_DATA
        /\ s3_objects (snd r) = <[(ESCROW_BUCKETNAME, h) := c]> (s3_objects w)
        /\ s3_objects (snd r) !! (ESCROW_BUCKETNAME, h) = Some c
        /\ In (CallPutObject ESCROW_BUCKETNAME h c) (calls (snd r)))
  /\ (forall public_key' w' h' k',
        fst (upload D public_key' (Some true) w') = Return (h', k') ->
        k' = h' /\ h' = h).
Proof.
  intros Hh Hpub Hc Hp r. subst r. pose proof Hh as Hh0.
  apply content_identifier_inv in Hh as (s & data & Hs & Hd & ->).
  rewrite (upload_s3_stored D public_key w s data pub_key Hs Hd Hpub Hc Hp).
  split; [reflexivity|]. split.
  - exists data. eexists. split.
    { unfold canonical_bytes. rewrite Hs. exact Hd. }
    split; [reflexivity|].
    unfold debug_logged. destruct DEBUG; cbn;
      (split; [reflexivity|]; split; [apply lookup_insert_eq | auto]).
  - intros public_key' w' h' k' H.
    rewrite (upload_s3_returns D public_key' _ w' Hh0) in H.
    injection H as <- <-. auto.
Qed.

(** The example document, stored in the bucket. *)
Lemma object_store_key_is_content_identifier_witness :
  let h := py "d5755b503101c0f4cf46c38420ce93d8d1f4fce0" in
  let r := @upload PyJson.module ToyCrypto.primitives default_config
                   example_document example_pub_key (Some true) world0 in
  fst r = Return (h, h)
  /\ is_Some (s3_objects (snd r) !! (@ESCROW_BUCKETNAME default_config, h)).
Proof.
  destruct example_pub_key_accepted as [pub_key Hpub].
  destruct (@object_store_key_is_content_identifier
              PyJson.module ToyCrypto.primitives default_config
              example_document example_pub_key pub_key _ world0
              example_document_identifier Hpub eq_refl eq_refl)
    as (H1 & (data & c & _ & _ & _ & H2 & _) & _).
  split; [exact H1|]. exists c. exact H2.
Defined.

(** C7 (backend failures).  On the content-store path, when the connection
    fails ([w_conn]) or when the add fails ([w_add]), [upload] raises and
    the store holds what it held; with the document serialized, the
    connection failure is the exception that comes out.  A key that does
    come back was assigned by the store in this call, to a block it now
    holds.  And [download] from the object store, for a key the bucket
    does not hold, raises the [ClientError] of [get_object]. *)
Theorem backend_failures_raise
    {J : JsonModule} {P : EciesPrimitives} {C : Config}
    (D : pyobj) (public_key : pystr) (w_conn w_add : World) (e1 e2 : exn)
    (key private_key : pystr) (w_s3 : World) :
  ipfs_connect_fault w_conn = Some e1 ->
  ipfs_add_fault w_add = Some e2 ->
  s3_client_fault w_s3 = None -> s3_get_fault w_s3 = None ->
  s3_objects w_s3 !! (ESCROW_BUCKETNAME, key) = None ->
  (is_raise (fst (upload D public_key (Some false) w_conn)) = true
   /\ ipfs_blocks (snd (upload D public_key (Some false) w_conn))
      = ipfs_blocks w_conn
   /\ (forall h, content_identifier D = Return h ->
                 fst (upload D public_key (Some false) w_conn) = Raise e1))
  /\ (is_raise (fst (upload D public_key (Some false) w_add)) = true
      /\ ipfs_blocks (snd (upload D public_key (Some false) w_add))
         = ipfs_blocks w_add)
  /\ (forall w w' h k,
        upload D public_key (Some false) w = (Return (h, k), w') ->
        ipfs_connect_fault w = None /\ ipfs_add_fault w = None
        /\ exists c, k = ipfs_cid w c /\ ipfs_blocks w' !! k = Some c)
  /\ fst (download key private_key (Some true) w_s3)
     = Raise (ClientError (py "NoSuchKey")).
Proof.
  intros Hconn Hadd Hc Hg Hmiss.
  assert (Hcases : forall w,
             (exists e, ipfs_connect_fault w = Some e)
             \/ (exists e, ipfs_add_fault w = Some e) ->
             is_raise (fst (upload D public_key (Some false) w)) = true
             /\ ipfs_blocks (snd (upload D public_key (Some false) w))
                = ipfs_blocks w).
  { intros w Hf.
    destruct (json_dumps D true) as [e|s] eqn:Hs.
    { rewrite (upload_dumps_raises _ _ _ _ _ Hs). auto. }
    destruct (utf8_encode s) as [e|data] eqn:Hd.
    { rewrite (upload_encode_raises _ _ _ _ _ _ Hs Hd). auto. }
    destruct (ipfs_connect_fault w) as [e|] eqn:Hic.
    { rewrite (upload_ipfs_connect_fails _ _ _ _ _ _ Hs Hd Hic). auto. }
    destruct (rbind (codecs_decode_hex public_key) keys_PublicKey)
      as [e|pub_key] eqn:Hpub.
    { rewrite (upload_ipfs_key_refused _ _ _ _ _ _ Hs Hd Hpub Hic). auto. }
    destruct Hf as [[e He]|[e He]]; [discriminate|].
    rewrite (upload_ipfs_add_fails _ _ _ _ _ _ _ Hs Hd Hpub Hic He). auto. }
  split.
  { destruct (Hcases w_conn) as [A B]; [left; eauto|].
    split; [exact A|]. split; [exact B|].
    intros h Hh. apply content_identifier_inv in Hh as (s & data & Hs & Hd & _).
    rewrite (upload_ipfs_connect_fails _ _ _ _ _ _ Hs Hd Hconn). reflexivity. }
  split; [apply Hcases; right; eauto|].
  split.
  { intros w w' h k H.
    destruct (upload_ipfs_returns_inv _ _ _ _ _ _ H) as (A & B & c & Hk & Hb & _).
    eauto. }
  apply download_s3_missing; assumption.
Qed.

(** The daemon down, the daemon refusing to add, and an empty bucket. *)
Lemma backend_failures_raise_witness :
  fst (@upload PyJson.module ToyCrypto.primitives default_config
               example_document example_pub_key (Some false) world_ipfs_down)
  = Raise ConnectionError
  /\ is_raise (fst (@upload PyJson.module ToyCrypto.primitives default_config
                            example_document example_pub_key (Some false)
                            world_ipfs_readonly)) = true
  /\ fst (@download PyJson.module ToyCrypto.primitives default_config
                    (py "d5755b503101c0f4cf46c38420ce93d8d1f4fce0")
                    example_priv_key (Some true) world0)
     = Raise (ClientError (py "NoSuchKey")).
Proof.
  destruct (@backend_failures_raise
              PyJson.module ToyCrypto.primitives default_config
              example_document example_pub_key
              world_ipfs_down world_ipfs_readonly ConnectionError ErrorResponse
              (py "d5755b503101c0f4cf46c38420ce93d8d1f4fce0") example_priv_key
              world0 eq_refl eq_refl eq_refl eq_refl eq_refl)
    as ((_ & _ & H1) & (H2 & _) & _ & H3).
  split; [exact (H1 _ example_document_identifier)|].
  split; [exact H2 | exact H3].
Defined.

(** C8 (randomized encryption).  Two calls of [_encrypt] in a row, on the
    same text for the same recipient, draw two ephemeral keys; when these
    differ the two ciphertexts differ, and [_decrypt] with the matching
    private key maps both back to the text. *)
Theorem encryption_is_randomized
    {P : EciesPrimitives} {C : Config} {L : EciesLaws P}
    (pub priv msg : pystr) (w : World) :
  valid_key_pair pub priv ->
  is_raise (utf8_encode msg) = false ->
  length (entropy w (drawn w)) = PRIVKEY_LEN ->
  length (entropy w (S (drawn w))) = PRIVKEY_LEN ->
  entropy w (drawn w) <> entropy w (S (drawn w)) ->
  exists c1 w1 c2 w2,
    _encrypt pub msg w = (Return c1, w1)
    /\ _encrypt pub msg w1 = (Return c2, w2)
    /\ c1 <> c2
    /\ _decrypt priv c1 = Return msg
    /\ _decrypt priv c2 = Return msg.
Proof.
  intros Hpair Henc He1 He2 Hne.
  destruct (valid_key_pair_public pub priv Hpair)
    as (k & Hk & Hlen & Hpub).
  destruct (is_raise_false _ Henc) as [data Hd].
  eexists. eexists. eexists. eexists.
  split; [rewrite _encrypt_run, Hpub, Hd; reflexivity|].
  split; [rewrite _encrypt_run, Hpub, Hd; reflexivity|].
  cbn [entropy drawn with_drawn].
  split.
  - intros Heq. apply Hne.
    apply (ecies_encrypt_with_inj _ _ data (mkPublicKey (pubkey_of k))
                                  SHARED_MAC_DATA He1 He2 Heq).
  - split; apply _decrypt_ecies_encrypt; assumption.
Qed.

(** The serialized example document, encrypted twice for one recipient. *)
Lemma encryption_is_randomized_witness :
  exists c1 w1 c2 w2,
    @_encrypt ToyCrypto.primitives default_config
              example_pub_key (pyq "{'reward': 5, 'task': 'label'}") world0
    = (Return c1, w1)
    /\ @_encrypt ToyCrypto.primitives default_config
                 example_pub_key (pyq "{'reward': 5, 'task': 'label'}") w1
       = (Return c2, w2)
    /\ c1 <> c2
    /\ @_decrypt ToyCrypto.primitives default_config example_priv_key c1
       = Return (pyq "{'reward': 5, 'task': 'label'}")
    /\ @_decrypt ToyCrypto.primitives default_config example_priv_key c2
       = Return (pyq "{'reward': 5, 'task': 'label'}").
Proof.
  apply (@encryption_is_randomized ToyCrypto.primitives default_config toy_laws
           example_pub_key example_priv_key
           (pyq "{'reward': 5, 'task': 'label'}") world0 example_keys_valid).
  - vm_compute. reflexivity.
  - reflexivity.
  - reflexivity.
  - vm_compute. discriminate.
Defined.

(** C9 (default backend).  A call that leaves the [s3] argument out runs
    as the call with [s3=True], for [upload] and for [download]. *)
Theorem default_backend_is_object_store
    {J : JsonModule} {P : EciesPrimitives} {C : Config} :
  (forall (msg : pyobj) (public_key : pystr),
      upload msg public_key None = upload msg public_key (Some true))
  /\ (forall (key private_key : pystr),
         download key private_key None = download key private_key (Some true)).
Proof. split; intros; reflexivity. Qed.

(** C10 (serialization failure comes first).  If [json.dumps] raises [e],
    [upload] raises [e] for either backend and for the default, and the
    world is as before but for one error record in the log: no request was
    made to a backend, no entropy was drawn, both stores hold what they
    held. *)
Theorem serialization_failure_precedes_everything
    {J : JsonModule} {P : EciesPrimitives} {C : Config}
    (D : pyobj) (public_key : pystr) (s3 : option bool) (w : World) (e : exn) :
  json_dumps D true = Raise e ->
  let r := upload D public_key s3 w in
  fst r = Raise e
  /\ snd r = with_log (LvlError, Msg_cant_extract_json) w
  /\ calls (snd r) = calls w
  /\ drawn (snd r) = drawn w
  /\ s3_objects (snd r) = s3_objects w
  /\ ipfs_blocks (snd r) = ipfs_blocks w.
Proof.
  intros H r. subst r. rewrite (upload_dumps_raises D public_key s3 w e H).
  cbn. repeat split.
Qed.

(** A document holding a [bytes] value, sent to the content store. *)
Lemma serialization_failure_precedes_everything_witness :
  let r := @upload PyJson.module ToyCrypto.primitives default_config
                   unserializable_document example_pub_key (Some false) world0 in
  is_raise (fst r) = true
  /\ calls (snd r) = [] /\ drawn (snd r) = O
  /\ s3_objects (snd r) = ∅ /\ ipfs_blocks (snd r) = ∅.
Proof.
  destruct (@serialization_failure_precedes_everything
              PyJson.module ToyCrypto.primitives default_config
              unserializable_document example_pub_key (Some false) world0
              (TypeError (py "Object of type bytes is not JSON serializable"))
              eq_refl)
    as (H1 & _ & H2 & H3 & H4 & H5).
  cbv zeta. rewrite H1. repeat split; assumption.
Defined.

(** C2 at a failing input.  The example document, uploaded through the
    object store while the bucket refuses writes: [put_object] raises, yet
    [upload] returns as if the object were stored, and the bucket is
    empty.  The same upload through the content store, with the daemon
    refusing the add, raises. *)
Theorem upload_s3_swallows_put_failure :
  let h := py "d5755b503101c0f4cf46c38420ce93d8d1f4fce0" in
  let r := @upload PyJson.module ToyCrypto.primitives default_config
                   example_document example_pub_key (Some true)
                   world_s3_put_denied in
  s3_put_fault world_s3_put_denied = Some (ClientError (py "AccessDenied"))
  /\ fst r = Return (h, h)
  /\ s3_objects (snd r) = ∅
  /\ fst (@upload PyJson.module ToyCrypto.primitives default_config
                  example_document example_pub_key (Some false)
                  world_ipfs_readonly)
     = Raise ErrorResponse.
Proof. vm_compute. repeat split. Qed.

(** The same path with a public key that is not hexadecimal text:
    [_encrypt] raises, nothing is put, and [upload] returns all the same. *)
Lemma upload_s3_swallows_encryption_failure :
  let h := py "d5755b503101c0f4cf46c38420ce93d8d1f4fce0" in
  let r := @upload PyJson.module ToyCrypto.primitives default_config
                   example_document (py "not a key") (Some true) world0 in
  fst r = Return (h, h)
  /\ s3_objects (snd r) = ∅
  /\ calls (snd r) = [CallBoto3Client (@ESCROW_ENDPOINT_URL default_config)].
Proof. vm_compute. repeat split. Qed.

(* ================================================================== *)
(** * Every path of download and upload                                *)
(* ================================================================== *)

Section Paths.
Context {J : JsonModule} {P : EciesPrimitives} {C : Config}.

(** All the ways [download] can go through the object store. *)
Lemma download_s3_paths (key private_key : pystr) (w : World) :
  download key private_key (Some true) w
  = let w1 := with_call (CallBoto3Client ESCROW_ENDPOINT_URL)
                        (debug_logged (Msg_downloading_s3_key key) w) in
    let w2 := with_call (CallGetObject ESCROW_BUCKETNAME key) w1 in
    let warn e := with_log (LvlWarning, Msg_s3_read_failed key private_key e) in
    match s3_client_fault w with
    | Some e =>
        (Raise e, warn e (with_log (LvlError, Msg_s3_connection_failed e) w1))
    | None =>
        match s3_get_fault w with
        | Some e => (Raise e, warn e w2)
        | None =>
            match s3_objects w !! (ESCROW_BUCKETNAME, key) with
            | None =>
                (Raise (ClientError (py "NoSuchKey")),
                 warn (ClientError (py "NoSuchKey")) w2)
            | Some c =>
                match _decrypt private_key c with
                | Raise e => (Raise e, warn e w2)
                | Return msg => (json_loads msg, w2)
                end
            end
        end
    end.
Proof.
  unfold download. cbv zeta. cbn [from_option id negb].
  unfold bind, try_except, ret, lift, raise, LOG_warning, LOG_emit.
  rewrite LOG_debug_run, _connect_s3_run. unfold get_object, debug_logged.
  destruct DEBUG; cbn [s3_client_fault with_call with_log];
    (destruct (s3_client_fault w); [reflexivity|]);
    cbn [s3_get_fault s3_objects with_call with_log];
    (destruct (s3_get_fault w); [reflexivity|]);
    (destruct (s3_objects w !! (ESCROW_BUCKETNAME, key)) as [c|]; [|reflexivity]);
    cbn [Body]; destruct (_decrypt private_key c); reflexivity.
Qed.

(** All the ways [download] can go through the content store. *)
Lemma download_ipfs_paths (key private_key : pystr) (w : World) :
  download key private_key (Some false) w
  = let w1 := with_call (CallIpfsConnect IPFS_HOST IPFS_PORT) w in
    let w2 := with_call (CallIpfsCat key 30)
                        (debug_logged (Msg_downloading_key key) w1) in
    let warn e := with_log (LvlWarning, Msg_ipfs_read_failed key private_key e) in
    match ipfs_connect_fault w with
    | Some e =>
        (Raise e, warn e (with_log (LvlError, Msg_ipfs_connection_failed e) w1))
    | None =>
        match ipfs_cat_fault w with
        | Some e => (Raise e, warn e w2)
        | None =>
            match ipfs_blocks w !! key with
            | None => (Raise TimeoutError, warn TimeoutError w2)
            | Some c =>
                match _decrypt private_key c with
                | Raise e => (Raise e, warn e w2)
                | Return msg => (json_loads msg, w2)
                end
            end
        end
    end.
Proof.
  unfold download. cbv zeta. cbn [from_option id negb].
  unfold bind, try_except, ret, lift, raise, LOG_warning, LOG_emit.
  rewrite _connect_run.
  destruct (ipfs_connect_fault w); [reflexivity|].
  rewrite LOG_debug_run. unfold Client_cat, debug_logged.
  destruct DEBUG; cbn [ipfs_cat_fault ipfs_blocks with_call with_log];
    (destruct (ipfs_cat_fault w); [reflexivity|]);
    (destruct (ipfs_blocks w !! key) as [c|]; [|reflexivity]);
    destruct (_decrypt private_key c); reflexivity.
Qed.

(** All the ways [upload] can go. *)
Lemma upload_paths (D : pyobj) (public_key : pystr) (s3 : option bool)
    (w : World) :
  upload D public_key s3 w
  = match json_dumps D true with
    | Raise e => (Raise e, with_log (LvlError, Msg_cant_extract_json) w)
    | Return s =>
        match utf8_encode s with
        | Raise e => (Raise e, w)
        | Return data =>
            let h := SHA1.hexdigest data in
            let c pub_key :=
              ecies_encrypt_with (mkPrivateKey (entropy w (drawn w))) data
                                 pub_key SHARED_MAC_DATA in
            if default true s3 then
              let w1 := with_call (CallBoto3Client ESCROW_ENDPOINT_URL) w in
              let warn e := with_log (LvlWarning, Msg_s3_upload_failed h e) in
              match s3_client_fault w with
              | Some e =>
                  (Return (h, h),
                   warn e (with_log (LvlError, Msg_s3_connection_failed e) w1))
              | None =>
                  match rbind (codecs_decode_hex public_key) keys_PublicKey with
                  | Raise e => (Return (h, h), warn e w1)
                  | Return pub_key =>
                      let w2 := with_call (CallPutObject ESCROW_BUCKETNAME h (c pub_key))
                                          (with_drawn (S (drawn w)) w1) in
                      match s3_put_fault w with
                      | Some e => (Return (h, h), warn e w2)
                      | None =>
                          (Return (h, h),
                           debug_logged (Msg_uploaded_to_s3 h)
                             (with_s3_objects
                                (<[(ESCROW_BUCKETNAME, h) := c pub_key]> (s3_objects w))
                                w2))
                      end
                  end
              end
            else
              let w1 := with_call (CallIpfsConnect IPFS_HOST IPFS_PORT) w in
              let warn e := with_log (LvlWarning, Msg_ipfs_add_failed e) in
              match ipfs_connect_fault w with
              | Some e =>
                  (Raise e,
                   warn e (with_log (LvlError, Msg_ipfs_connection_failed e) w1))
              | None =>
                  match rbind (codecs_decode_hex public_key) keys_PublicKey with
                  | Raise e => (Raise e, warn e w1)
                  | Return pub_key =>
                      let w2 := with_call (CallIpfsAddBytes (c pub_key))
                                          (with_drawn (S (drawn w)) w1) in
                      match ipfs_add_fault w with
                      | Some e => (Raise e, warn e w2)
                      | None =>
                          let key := ipfs_cid w (c pub_key) in
                          (Return (h, key),
                           debug_logged (Msg_uploaded_to_ipfs key)
                             (with_ipfs_blocks
                                (<[key := c pub_key]> (ipfs_blocks w)) w2))
                      end
                  end
              end
        end
    end.
Proof.
  destruct (json_dumps D true) as [e|s] eqn:Hs.
  { apply upload_dumps_raises. exact Hs. }
  destruct (utf8_encode s) as [e|data] eqn:Hd.
  { apply (upload_encode_raises D public_key s3 w s e Hs Hd). }
  cbv zeta.
  assert (Hflag : forall b, default true s3 = b ->
            upload D public_key s3 w = upload D public_key (Some b) w).
  { intros b <-. destruct s3 as [[|]|]; reflexivity. }
  rewrite (Hflag _ eq_refl).
  destruct (default true s3).
  - destruct (s3_client_fault w) as [e|] eqn:Hc.
    { unfold upload. cbv zeta. cbn [from_option id negb].
      erewrite bind_Return
        by (apply try_except_Return; unfold lift; rewrite Hs; reflexivity).
      erewrite bind_Return by (unfold lift; rewrite Hd; reflexivity).
      unfold bind, try_except, ret. rewrite _connect_s3_run, Hc. reflexivity. }
    destruct (rbind (codecs_decode_hex public_key) keys_PublicKey)
      as [e|pub_key] eqn:Hpub.
    { apply (upload_s3_key_refused D public_key w s data e Hs Hd Hpub Hc). }
    destruct (s3_put_fault w) as [e|] eqn:Hp.
    + apply (upload_s3_put_fails D public_key w s data pub_key e Hs Hd Hpub Hc Hp).
    + apply (upload_s3_stored D public_key w s data pub_key Hs Hd Hpub Hc Hp).
  - destruct (ipfs_connect_fault w) as [e|] eqn:Hc.
    { apply (upload_ipfs_connect_fails D public_key w s data e Hs Hd Hc). }
    destruct (rbind (codecs_decode_hex public_key) keys_PublicKey)
      as [e|pub_key] eqn:Hpub.
    { apply (upload_ipfs_key_refused D public_key w s data e Hs Hd Hpub Hc). }
    destruct (ipfs_add_fault w) as [e|] eqn:Ha.
    + apply (upload_ipfs_add_fails D public_key w s data pub_key e Hs Hd Hpub Hc Ha).
    + apply (upload_ipfs_stored D public_key w s data pub_key Hs Hd Hpub Hc Ha).
Qed.

End Paths.

(* ================================================================== *)
(** * Further properties of download                                   *)
(* ================================================================== *)

Section DownloadProperties.
Context {J : JsonModule} {P : EciesPrimitives} {C : Config}.

(** An omitted flag is the flag [True]. *)
Lemma download_flag (key private_key : pystr) (s3 : option bool) :
  download key private_key s3 = download key private_key (Some (default true s3)).
Proof. destruct s3 as [[|]|]; reflexivity. Qed.

Lemma upload_flag (D : pyobj) (public_key : pystr) (s3 : option bool) :
  upload D public_key s3 = upload D public_key (Some (default true s3)).
Proof. destruct s3 as [[|]|]; reflexivity. Qed.

End DownloadProperties.

(** A call of the trace after an operation is one of the new calls, which
    are checked one by one, or was there before. *)
Ltac new_calls :=
  let c := fresh "c" in
  let Hc := fresh "Hc" in
  intros c Hc; cbn in Hc;
  repeat (destruct Hc as [<-|Hc]; [right; reflexivity|]);
  left; exact Hc.

(** Split on every fault, lookup and library result that a path lemma
    mentions. *)
Ltac all_paths :=
  repeat match goal with
         | |- context [match ?x with _ => _ end] =>
             lazymatch x with
             | context [match _ with _ => _ end] => fail
             | _ => destruct x eqn:?
             end
         end.

(** X1 ([download] only reads).  Whatever the key, the flag and the state
    of the world, and whether it returns or raises, [download] leaves the
    bucket, the content store and the entropy counter as they were, and
    none of the calls it makes asks a store to keep something. *)
Theorem download_only_reads
    {J : JsonModule} {P : EciesPrimitives} {C : Config}
    (key private_key : pystr) (s3 : option bool) (w : World) :
  let w' := snd (download key private_key s3 w) in
  s3_objects w' = s3_objects w
  /\ ipfs_blocks w' = ipfs_blocks w
  /\ drawn w' = drawn w
  /\ (forall c, In c (calls w') -> In c (calls w) \/ is_write_call c = false).
Proof.
  cbv zeta. rewrite download_flag.
  destruct (default true s3);
    [rewrite download_s3_paths | rewrite download_ipfs_paths];
    cbv zeta; unfold debug_logged; all_paths;
    cbn [snd s3_objects ipfs_blocks drawn calls with_log with_call];
    (repeat split; new_calls).
Qed.

(** X2 ([download] returns only what is stored).  If [download] returns a
    document, the store chosen by the flag holds an object under the key,
    [_decrypt] turns that object into a text with the presented private
    key, and the document is what [json.loads] makes of that text. *)
Theorem download_returns_only_what_is_stored
    {J : JsonModule} {P : EciesPrimitives} {C : Config}
    (key private_key : pystr) (s3 : option bool) (w : World) (D' : pyobj) :
  fst (download key private_key s3 w) = Return D' ->
  exists c msg,
    held_by (default true s3) w key = Some c
    /\ _decrypt private_key c = Return msg
    /\ json_loads msg = Return D'.
Proof.
  rewrite download_flag. unfold held_by.
  destruct (default true s3);
    [rewrite download_s3_paths | rewrite download_ipfs_paths];
    cbv zeta; all_paths; cbn [fst]; intros H; try discriminate; eauto.
Qed.

(** The example document, fetched from the bucket it was uploaded to. *)
Lemma download_returns_only_what_is_stored_witness :
  exists c msg,
    @held_by default_config true world_s3_stored example_hash = Some c
    /\ @_decrypt ToyCrypto.primitives default_config example_priv_key c
       = Return msg
    /\ @json_loads PyJson.module msg
       = Return (PyDict [(py "reward", PyInt 5); (py "task", PyStr (py "label"))]).
Proof.
  apply (@download_returns_only_what_is_stored
           PyJson.module ToyCrypto.primitives default_config
           example_hash example_priv_key (Some true) world_s3_stored).
  vm_compute. reflexivity.
Defined.

(** X3 (what [download] logs when it fails).  When [download] raises [e],
    either the newest log record is the handler's warning, which names the
    key and the private key of the call, or the failure is that of
    [json.loads] on a text that was fetched and decrypted, and then no
    record above debug level was written. *)
Theorem download_failure_logging
    {J : JsonModule} {P : EciesPrimitives} {C : Config}
    (key private_key : pystr) (s3 : option bool) (w : World) (e : exn) :
  let r := download key private_key s3 w in
  fst r = Raise e ->
  hd_error (log (snd r))
  = Some (LvlWarning, read_failed (default true s3) key private_key e)
  \/ (exists c msg,
         held_by (default true s3) w key = Some c
         /\ _decrypt private_key c = Return msg
         /\ json_loads msg = Raise e
         /\ above_debug (log (snd r)) = above_debug (log w)).
Proof.
  cbv zeta. rewrite download_flag. unfold held_by, read_failed.
  destruct (default true s3);
    [rewrite download_s3_paths | rewrite download_ipfs_paths];
    cbv zeta; all_paths; cbn [fst snd]; intros H;
    try (left; injection H as <-; reflexivity);
    right; eexists; eexists;
    (split; [reflexivity|]); (split; [eassumption|]); (split; [congruence|]);
    unfold debug_logged; destruct DEBUG; reflexivity.
Qed.

(** A key the bucket does not hold, and an object that is not JSON. *)
Lemma download_failure_logging_witness :
  hd_error (log (snd (@download PyJson.module ToyCrypto.primitives default_config
                                example_hash example_priv_key (Some true) world0)))
  = Some (LvlWarning,
          Msg_s3_read_failed example_hash example_priv_key
                             (ClientError (py "NoSuchKey")))
  /\ (let r := @download PyJson.module ToyCrypto.primitives default_config
                         (py "broken") example_priv_key (Some true)
                         world_s3_not_json in
      fst r = Raise JSONDecodeError /\ log (snd r) = []).
Proof.
  split.
  - destruct (@download_failure_logging
                PyJson.module ToyCrypto.primitives default_config
                example_hash example_priv_key (Some true) world0
                (ClientError (py "NoSuchKey")) eq_refl)
      as [H|(c & msg & H & _)]; [exact H | discriminate H].
  - vm_compute. split; reflexivity.
Defined.

(** X4 (a failed connection in [download]).  When the S3 client cannot be
    built, or the IPFS daemon cannot be reached, [download] raises the
    exception of the connection helper.  The helper logged it as an error
    and [download] logs it again as a warning; the connection attempt is
    the only call made, so no object is requested. *)
Theorem download_connection_failure
    {J : JsonModule} {P : EciesPrimitives} {C : Config}
    (key private_key : pystr) (w_s3 w_ipfs : World) (e1 e2 : exn) :
  s3_client_fault w_s3 = Some e1 ->
  ipfs_connect_fault w_ipfs = Some e2 ->
  (let r := download key private_key (Some true) w_s3 in
   fst r = Raise e1
   /\ calls (snd r) = CallBoto3Client ESCROW_ENDPOINT_URL :: calls w_s3
   /\ above_debug (log (snd r))
      = (LvlWarning, Msg_s3_read_failed key private_key e1)
          :: (LvlError, Msg_s3_connection_failed e1) :: above_debug (log w_s3))
  /\ (let r := download key private_key (Some false) w_ipfs in
      fst r = Raise e2
      /\ calls (snd r) = CallIpfsConnect IPFS_HOST IPFS_PORT :: calls w_ipfs
      /\ log (snd r)
         = (LvlWarning, Msg_ipfs_read_failed key private_key e2)
             :: (LvlError, Msg_ipfs_connection_failed e2) :: log w_ipfs).
Proof.
  intros H1 H2. cbv zeta.
  rewrite download_s3_paths, download_ipfs_paths. cbv zeta.
  rewrite H1, H2. cbn [fst snd]. unfold debug_logged.
  destruct DEBUG; repeat split.
Qed.

(** No S3 client to be had, and the IPFS daemon down. *)
Lemma download_connection_failure_witness :
  fst (@download PyJson.module ToyCrypto.primitives default_config
                 example_hash example_priv_key (Some true) world_s3_down)
  = Raise BotoCoreError
  /\ fst (@download PyJson.module ToyCrypto.primitives default_config
                    example_hash example_priv_key (Some false) world_ipfs_down)
     = Raise ConnectionError.
Proof.
  destruct (@download_connection_failure
              PyJson.module ToyCrypto.primitives default_config
              example_hash example_priv_key world_s3_down world_ipfs_down
              BotoCoreError ConnectionError eq_refl eq_refl)
    as ((H1 & _) & (H2 & _)).
  split; [exact H1 | exact H2].
Defined.

(* ================================================================== *)
(** * Further properties of upload                                     *)
(* ================================================================== *)

Section UploadFrame.
Context {J : JsonModule} {P : EciesPrimitives} {C : Config}.

(** [upload] changes neither what makes requests fail, nor the entropy
    source, nor the content store's key scheme. *)
Lemma upload_preserves_environment (D : pyobj) (public_key : pystr)
    (s3 : option bool) (w : World) :
  let w' := snd (upload D public_key s3 w) in
  ipfs_connect_fault w' = ipfs_connect_fault w
  /\ ipfs_add_fault w' = ipfs_add_fault w
  /\ ipfs_cat_fault w' = ipfs_cat_fault w
  /\ s3_client_fault w' = s3_client_fault w
  /\ s3_put_fault w' = s3_put_fault w
  /\ s3_get_fault w' = s3_get_fault w
  /\ entropy w' = entropy w
  /\ ipfs_cid w' = ipfs_cid w.
Proof.
  cbv zeta. rewrite upload_paths. cbv zeta. unfold debug_logged.
  all_paths; cbn; repeat split; assumption.
Qed.

(** What [upload] can change in the stores: in the bucket, the object
    under the content identifier, on the object-store path; in the content
    store, the block under the key it returns, on the content-store path. *)
Lemma upload_frame (D : pyobj) (public_key : pystr) (s3 : option bool)
    (w : World) :
  let r := upload D public_key s3 w in
  (forall b k,
      s3_objects (snd r) !! (b, k) = s3_objects w !! (b, k)
      \/ (default true s3 = true /\ b = ESCROW_BUCKETNAME
          /\ content_identifier D = Return k))
  /\ (forall k,
         ipfs_blocks (snd r) !! k = ipfs_blocks w !! k
         \/ (default true s3 = false /\ exists h, fst r = Return (h, k))).
Proof.
  cbv zeta. rewrite upload_paths. cbv zeta.
  destruct (json_dumps D true) as [e|s] eqn:Hs; [split; intros; left; reflexivity|].
  destruct (utf8_encode s) as [e|data] eqn:Hd; [split; intros; left; reflexivity|].
  pose proof (content_identifier_intro D s data Hs Hd) as Hh.
  destruct (default true s3).
  - destruct (s3_client_fault w); [split; intros; left; reflexivity|].
    destruct (rbind (codecs_decode_hex public_key) keys_PublicKey) as [e|pub_key];
      [split; intros; left; reflexivity|].
    destruct (s3_put_fault w); [split; intros; left; reflexivity|].
    split; [|intros; left; unfold debug_logged; destruct DEBUG; reflexivity].
    intros b k.
    destruct (decide ((ESCROW_BUCKETNAME, SHA1.hexdigest data) = (b, k))) as [E|N].
    + right. injection E as <- <-. auto.
    + left. unfold debug_logged. destruct DEBUG; cbn; apply lookup_insert_ne; exact N.
  - destruct (ipfs_connect_fault w); [split; intros; left; reflexivity|].
    destruct (rbind (codecs_decode_hex public_key) keys_PublicKey) as [e|pub_key];
      [split; intros; left; reflexivity|].
    destruct (ipfs_add_fault w); [split; intros; left; reflexivity|].
    split; [intros; left; unfold debug_logged; destruct DEBUG; reflexivity|].
    intros k.
    match goal with
    | |- context [Return (_, ?key)] => destruct (decide (key = k)) as [E|N]
    end.
    + right. split; [reflexivity|]. eexists. cbn [fst]. rewrite E. reflexivity.
    + left. unfold debug_logged. destruct DEBUG; cbn; apply lookup_insert_ne; exact N.
Qed.

(** The outcome of [download] is decided by the faults of the chosen
    store and by what it holds under the key. *)
Lemma download_depends_on (key private_key : pystr) (w w' : World) :
  (s3_client_fault w' = s3_client_fault w ->
   s3_get_fault w' = s3_get_fault w ->
   s3_objects w' !! (ESCROW_BUCKETNAME, key) = s3_objects w !! (ESCROW_BUCKETNAME, key) ->
   fst (download key private_key (Some true) w')
   = fst (download key private_key (Some true) w))
  /\ (ipfs_connect_fault w' = ipfs_connect_fault w ->
      ipfs_cat_fault w' = ipfs_cat_fault w ->
      ipfs_blocks w' !! key = ipfs_blocks w !! key ->
      fst (download key private_key (Some false) w')
      = fst (download key private_key (Some false) w)).
Proof.
  split; intros H1 H2 H3.
  - rewrite !download_s3_paths. cbv zeta. rewrite H1, H2, H3.
    all_paths; reflexivity.
  - rewrite !download_ipfs_paths. cbv zeta. rewrite H1, H2, H3.
    all_paths; reflexivity.
Qed.

End UploadFrame.

(** X5 (one backend per operation).  With the object-store flag, or no
    flag, [upload] and [download] leave the content store as it was and
    make no call to it; with the content-store flag they leave the bucket
    as it was and make no call to S3.  This holds in every world and for
    every outcome. *)
Theorem one_backend_per_operation
    {J : JsonModule} {P : EciesPrimitives} {C : Config}
    (D : pyobj) (public_key key private_key : pystr) (s3 : option bool)
    (w : World) :
  let up := snd (upload D public_key s3 w) in
  let down := snd (download key private_key s3 w) in
  if default true s3 then
    ipfs_blocks up = ipfs_blocks w /\ ipfs_blocks down = ipfs_blocks w
    /\ (forall c, In c (calls up) -> In c (calls w) \/ is_ipfs_call c = false)
    /\ (forall c, In c (calls down) -> In c (calls w) \/ is_ipfs_call c = false)
  else
    s3_objects up = s3_objects w /\ s3_objects down = s3_objects w
    /\ (forall c, In c (calls up) -> In c (calls w) \/ is_s3_call c = false)
    /\ (forall c, In c (calls down) -> In c (calls w) \/ is_s3_call c = false).
Proof.
  cbv zeta. rewrite upload_flag, download_flag.
  destruct (default true s3).
  - rewrite upload_paths, download_s3_paths. cbv zeta. cbn [from_option id].
    unfold debug_logged. split; [|split; [|split]].
    + all_paths; reflexivity.
    + all_paths; reflexivity.
    + all_paths; cbn [snd calls with_log with_call with_s3_objects with_drawn];
        new_calls.
    + all_paths; cbn [snd calls with_log with_call]; new_calls.
  - rewrite upload_paths, download_ipfs_paths. cbv zeta. cbn [from_option id].
    unfold debug_logged. split; [|split; [|split]].
    + all_paths; reflexivity.
    + all_paths; reflexivity.
    + all_paths; cbn [snd calls with_log with_call with_ipfs_blocks with_drawn];
        new_calls.
    + all_paths; cbn [snd calls with_log with_call]; new_calls.
Qed.

(** X6 ([upload] changes only its own key).  In the bucket, an object in
    another bucket or under a key that is not the content identifier of the
    document is as it was after [upload]; in the content store, a block
    under a key other than the one [upload] returns is as it was.  This
    holds for every flag, world and outcome. *)
Theorem upload_changes_only_its_own_key
    {J : JsonModule} {P : EciesPrimitives} {C : Config}
    (D : pyobj) (public_key : pystr) (s3 : option bool) (w : World)
    (b k1 k2 : pystr) :
  b <> ESCROW_BUCKETNAME \/ content_identifier D <> Return k1 ->
  (forall h, fst (upload D public_key s3 w) <> Return (h, k2)) ->
  let w' := snd (upload D public_key s3 w) in
  s3_objects w' !! (b, k1) = s3_objects w !! (b, k1)
  /\ ipfs_blocks w' !! k2 = ipfs_blocks w !! k2.
Proof.
  intros H1 H2. cbv zeta.
  destruct (upload_frame D public_key s3 w) as [Fs Fi]. split.
  - destruct (Fs b k1) as [E|(_ & Eb & Ek)]; [exact E|].
    exfalso. destruct H1 as [H1|H1]; [apply H1; exact Eb | apply H1; exact Ek].
  - destruct (Fi k2) as [E|(_ & h & Eh)]; [exact E|].
    exfalso. apply (H2 h). exact Eh.
Qed.

(** The other document goes to the bucket that holds the example: the
    example's object stays, and so does an absent block. *)
Lemma upload_changes_only_its_own_key_witness :
  let w' := snd (@upload PyJson.module ToyCrypto.primitives default_config
                         other_document example_pub_key (Some true)
                         world_s3_stored) in
  s3_objects w' !! (@ESCROW_BUCKETNAME default_config, example_hash)
  = s3_objects world_s3_stored !! (@ESCROW_BUCKETNAME default_config, example_hash)
  /\ ipfs_blocks w' !! py "Qm" = ipfs_blocks world_s3_stored !! py "Qm".
Proof.
  apply (@upload_changes_only_its_own_key
           PyJson.module ToyCrypto.primitives default_config
           other_document example_pub_key (Some true) world_s3_stored
           (@ESCROW_BUCKETNAME default_config) example_hash (py "Qm")).
  - right. vm_compute. discriminate.
  - intros h. vm_compute. discriminate.
Defined.

(** X7 (a stored document survives other uploads).  After [upload] of a
    document, with any key and flag and whatever its outcome, [download]
    through the object store of a key that is not that document's content
    identifier gives what it gave before; and [download] through the
    content store of a key that [upload] did not return gives what it gave
    before. *)
Theorem stored_document_survives_other_uploads
    {J : JsonModule} {P : EciesPrimitives} {C : Config}
    (D : pyobj) (public_key : pystr) (s3 : option bool) (w : World)
    (key1 key2 private_key : pystr) :
  content_identifier D <> Return key1 ->
  (forall h, fst (upload D public_key s3 w) <> Return (h, key2)) ->
  let w' := snd (upload D public_key s3 w) in
  fst (download key1 private_key (Some true) w')
  = fst (download key1 private_key (Some true) w)
  /\ fst (download key2 private_key (Some false) w')
     = fst (download key2 private_key (Some false) w).
Proof.
  intros H1 H2. cbv zeta.
  destruct (upload_preserves_environment D public_key s3 w)
    as (Eic & _ & Eicat & Esc & _ & Esg & _).
  destruct (upload_frame D public_key s3 w) as [Fs Fi].
  destruct (download_depends_on key1 private_key w (snd (upload D public_key s3 w)))
    as [Ds _].
  destruct (download_depends_on key2 private_key w (snd (upload D public_key s3 w)))
    as [_ Di].
  split.
  - apply Ds; try assumption.
    destruct (Fs ESCROW_BUCKETNAME key1) as [E|(_ & _ & Ek)]; [exact E|].
    exfalso. apply H1. exact Ek.
  - apply Di; try assumption.
    destruct (Fi key2) as [E|(_ & h & Eh)]; [exact E|].
    exfalso. apply (H2 h). exact Eh.
Qed.

(** The example document is still there after the other document was
    uploaded to the same bucket. *)
Lemma stored_document_survives_other_uploads_witness :
  fst (@download PyJson.module ToyCrypto.primitives default_config
                 example_hash example_priv_key (Some true)
                 (snd (@upload PyJson.module ToyCrypto.primitives default_config
                               other_document other_pub_key (Some true)
                               world_s3_stored)))
  = Return (PyDict [(py "reward", PyInt 5); (py "task", PyStr (py "label"))]).
Proof.
  destruct (@stored_document_survives_other_uploads
              PyJson.module ToyCrypto.primitives default_config
              other_document other_pub_key (Some true) world_s3_stored
              example_hash (py "Qm") example_priv_key) as [H _].
  - vm_compute. discriminate.
  - intros h. vm_compute. discriminate.
  - rewrite H. vm_compute. reflexivity.
Defined.

(** X8 (one object per document).  Two object-store uploads of one
    document in a row, for two recipients, with the client built and the
    puts succeeding: the bucket ends as if only the second upload had
    happened.  Under the content identifier it holds the ciphertext made
    for the second recipient with the second ephemeral key, and [download]
    of the identifier, for any private key, is [_decrypt] of that
    ciphertext. *)
Theorem object_store_second_upload_replaces_first
    {J : JsonModule} {P : EciesPrimitives} {C : Config}
    (D : pyobj) (public_key1 public_key2 : pystr) (pub_key1 pub_key2 : PublicKey)
    (h : pystr) (w : World) :
  content_identifier D = Return h ->
  rbind (codecs_decode_hex public_key1) keys_PublicKey = Return pub_key1 ->
  rbind (codecs_decode_hex public_key2) keys_PublicKey = Return pub_key2 ->
  s3_client_fault w = None -> s3_put_fault w = None -> s3_get_fault w = None ->
  let w1 := snd (upload D public_key1 (Some true) w) in
  let w2 := snd (upload D public_key2 (Some true) w1) in
  exists data,
    canonical_bytes D = Return data
    /\ let c2 := ecies_encrypt_with (mkPrivateKey (entropy w (S (drawn w)))) data
                                    pub_key2 SHARED_MAC_DATA in
       s3_objects w2 = <[(ESCROW_BUCKETNAME, h) := c2]> (s3_objects w)
       /\ forall private_key,
            fst (download h private_key (Some true) w2)
            = rbind (_decrypt private_key c2) json_loads.
Proof.
  intros Hh Hp1 Hp2 Hc Hp Hg. cbv zeta.
  apply content_identifier_inv in Hh as (s & data & Hs & Hd & ->).
  exists data. split; [unfold canonical_bytes; rewrite Hs; exact Hd|].
  destruct (upload_preserves_environment D public_key1 (Some true) w)
    as (_ & _ & _ & Ec1 & Ep1 & Eg1 & Ee1 & _).
  destruct (upload_preserves_environment
              D public_key2 (Some true) (snd (upload D public_key1 (Some true) w)))
    as (_ & _ & _ & Ec2 & _ & Eg2 & _).
  cbv zeta in Ec1, Ep1, Eg1, Ee1, Ec2, Eg2.
  assert (Hobj2 :
    s3_objects (snd (upload D public_key2 (Some true)
                            (snd (upload D public_key1 (Some true) w))))
    = <[(ESCROW_BUCKETNAME, SHA1.hexdigest data) :=
          ecies_encrypt_with (mkPrivateKey (entropy w (S (drawn w)))) data
                             pub_key2 SHARED_MAC_DATA]> (s3_objects w)).
  { rewrite (upload_s3_stored D public_key2 _ s data pub_key2 Hs Hd Hp2)
      by congruence.
    rewrite (upload_s3_stored D public_key1 w s data pub_key1 Hs Hd Hp1 Hc Hp).
    unfold debug_logged. destruct DEBUG; cbn; apply insert_insert_eq. }
  split; [exact Hobj2|].
  intros private_key. apply download_s3_found; [congruence | congruence |].
  rewrite Hobj2. apply lookup_insert_eq.
Qed.

Lemma other_pub_key_accepted :
  exists pub_key,
    rbind (codecs_decode_hex other_pub_key) keys_PublicKey = Return pub_key.
Proof. eexists. vm_compute. reflexivity. Qed.

(** The example document, uploaded for the example recipient and then for
    the other one: the other recipient reads it, the first no longer can. *)
Lemma object_store_second_upload_replaces_first_witness :
  let w2 := snd (@upload PyJson.module ToyCrypto.primitives default_config
                         example_document other_pub_key (Some true)
                         world_s3_stored) in
  size (s3_objects w2) = 1%nat
  /\ is_raise (fst (@download PyJson.module ToyCrypto.primitives default_config
                              example_hash other_priv_key (Some true) w2)) = false
  /\ fst (@download PyJson.module ToyCrypto.primitives default_config
                    example_hash example_priv_key (Some true) w2)
     = Raise (DecryptionError (py "Failed to verify tag")).
Proof.
  destruct example_pub_key_accepted as [pub1 Hp1].
  destruct other_pub_key_accepted as [pub2 Hp2].
  destruct (@object_store_second_upload_replaces_first
              PyJson.module ToyCrypto.primitives default_config
              example_document example_pub_key other_pub_key pub1 pub2
              example_hash world0 example_document_identifier Hp1 Hp2
              eq_refl eq_refl eq_refl) as (data & _ & Hobj & Hdown).
  fold world_s3_stored in Hobj, Hdown. cbv zeta.
  split.
  { rewrite Hobj.
    change (s3_objects world0) with (∅ : gmap (pystr * pystr) bytes).
    rewrite insert_empty. apply map_size_singleton. }
  split; vm_compute; reflexivity.
Defined.

(** X9 (content-store keys stay valid).  In a world where the content
    store answers, two uploads of a JSON-compatible document in a row for
    one recipient both return; afterwards the key of the first upload and
    the key of the second both download, with the matching private key, to
    a document equal to the uploaded one. *)
Theorem content_store_keys_stay_valid
    {J : JsonModule} {P : EciesPrimitives} {C : Config} {L : EciesLaws P}
    (D : pyobj) (pub priv : pystr) (w : World) :
  json_compatible D -> valid_key_pair pub priv -> healthy w ->
  exists h k1 k2 w1 w2 D',
    upload D pub (Some false) w = (Return (h, k1), w1)
    /\ upload D pub (Some false) w1 = (Return (h, k2), w2)
    /\ fst (download k1 priv (Some false) w2) = Return D'
    /\ fst (download k2 priv (Some false) w2) = Return D'
    /\ py_eqb D' D = true.
Proof.
  intros (s & D' & Hs & Henc & Hloads & Heq) Hpair Hw.
  destruct (valid_key_pair_public pub priv Hpair) as (k & Hk & Hlen & Hpub).
  destruct (is_raise_false _ Henc) as [data Hd].
  destruct Hw as (Hic & Hia & Hicat & _ & _ & _ & Hent).
  destruct (upload_preserves_environment D pub (Some false) w)
    as (Eic1 & Eia1 & Eicat1 & _ & _ & _ & Ee1 & Ecid1).
  cbv zeta in Eic1, Eia1, Eicat1, Ee1, Ecid1.
  pose proof (upload_ipfs_stored D pub w s data _ Hs Hd Hpub Hic Hia) as U1.
  cbv zeta in U1.
  set (c1 := ecies_encrypt_with (mkPrivateKey (entropy w (drawn w))) data
                                (mkPublicKey (pubkey_of k)) SHARED_MAC_DATA) in *.
  rewrite U1 in Eic1, Eia1, Eicat1, Ee1, Ecid1. cbn [snd] in *.
  match type of U1 with
  | _ = (_, ?w1') => set (w1 := w1') in *
  end.
  assert (Hd1 : drawn w1 = S (drawn w))
    by (subst w1; unfold debug_logged; destruct DEBUG; reflexivity).
  assert (Hb1 : ipfs_blocks w1 = <[ipfs_cid w c1 := c1]> (ipfs_blocks w))
    by (subst w1; unfold debug_logged; destruct DEBUG; reflexivity).
  pose proof (upload_ipfs_stored D pub w1 s data _ Hs Hd Hpub) as U2.
  cbv zeta in U2. rewrite Eic1, Eia1, Ee1, Ecid1, Hd1 in U2.
  specialize (U2 Hic Hia).
  set (c2 := ecies_encrypt_with (mkPrivateKey (entropy w (S (drawn w)))) data
                                (mkPublicKey (pubkey_of k)) SHARED_MAC_DATA) in *.
  match type of U2 with
  | _ = (_, ?w2') => set (w2 := w2') in *
  end.
  assert (Hb2 : ipfs_blocks w2
                = <[ipfs_cid w c2 := c2]> (<[ipfs_cid w c1 := c1]> (ipfs_blocks w)))
    by (subst w2; unfold debug_logged; destruct DEBUG; cbn; rewrite Hb1; reflexivity).
  destruct (upload_preserves_environment D pub (Some false) w1)
    as (Eic2 & _ & Eicat2 & _).
  cbv zeta in Eic2, Eicat2. rewrite U2 in Eic2, Eicat2. cbn [snd] in Eic2, Eicat2.
  assert (Hdec1 : _decrypt priv c1 = Return s)
    by (apply _decrypt_ecies_encrypt; auto).
  assert (Hdec2 : _decrypt priv c2 = Return s)
    by (apply _decrypt_ecies_encrypt; auto).
  exists (SHA1.hexdigest data), (ipfs_cid w c1), (ipfs_cid w c2), w1, w2, D'.
  split; [exact U1|]. split; [exact U2|].
  split; [|split; [|exact Heq]].
  - destruct (decide (ipfs_cid w c2 = ipfs_cid w c1)) as [E|N].
    + rewrite (download_ipfs_found (ipfs_cid w c1) priv w2 c2);
        [rewrite Hdec2; exact Hloads | congruence | congruence |].
      rewrite Hb2, E. apply lookup_insert_eq.
    + rewrite (download_ipfs_found (ipfs_cid w c1) priv w2 c1);
        [rewrite Hdec1; exact Hloads | congruence | congruence |].
      rewrite Hb2, lookup_insert_ne by exact N. apply lookup_insert_eq.
  - rewrite (download_ipfs_found (ipfs_cid w c2) priv w2 c2);
      [rewrite Hdec2; exact Hloads | congruence | congruence |].
    rewrite Hb2. apply lookup_insert_eq.
Qed.

(** The example document, added twice to the content store. *)
Lemma content_store_keys_stay_valid_witness :
  exists h k1 k2 w1 w2 D',
    @upload PyJson.module ToyCrypto.primitives default_config
            example_document example_pub_key (Some false) world0
    = (Return (h, k1), w1)
    /\ @upload PyJson.module ToyCrypto.primitives default_config
               example_document example_pub_key (Some false) w1
       = (Return (h, k2), w2)
    /\ fst (@download PyJson.module ToyCrypto.primitives default_config
                      k1 example_priv_key (Some false) w2) = Return D'
    /\ fst (@download PyJson.module ToyCrypto.primitives default_config
                      k2 example_priv_key (Some false) w2) = Return D'
    /\ py_eqb D' example_document = true.
Proof.
  exact (@content_store_keys_stay_valid
           PyJson.module ToyCrypto.primitives default_config toy_laws
           example_document example_pub_key example_priv_key world0
           example_document_json_compatible example_keys_valid world0_healthy).
Defined.

(** X10 (the key of a failed put does not download).  On the object-store
    path, when the put fails and the bucket did not already hold an object
    under the content identifier, [upload] returns the identifier and
    [download] of that identifier raises the [ClientError] of
    [get_object]. *)
Theorem failed_put_key_does_not_download
    {J : JsonModule} {P : EciesPrimitives} {C : Config}
    (D : pyobj) (public_key private_key : pystr) (pub_key : PublicKey)
    (h : pystr) (w : World) (e : exn) :
  content_identifier D = Return h ->
  rbind (codecs_decode_hex public_key) keys_PublicKey = Return pub_key ->
  s3_client_fault w = None -> s3_put_fault w = Some e ->
  s3_get_fault w = None ->
  s3_objects w !! (ESCROW_BUCKETNAME, h) = None ->
  let r := upload D public_key (Some true) w in
  fst r = Return (h, h)
  /\ fst (download h private_key (Some true) (snd r))
     = Raise (ClientError (py "NoSuchKey")).
Proof.
  intros Hh Hpub Hc Hp Hg Hnone. cbv zeta.
  apply content_identifier_inv in Hh as (s & data & Hs & Hd & ->).
  rewrite (upload_s3_put_fails D public_key w s data pub_key e Hs Hd Hpub Hc Hp).
  split; [reflexivity|].
  apply download_s3_missing; assumption.
Qed.

(** The example document, uploaded while the bucket refuses writes. *)
Lemma failed_put_key_does_not_download_witness :
  let r := @upload PyJson.module ToyCrypto.primitives default_config
                   example_document example_pub_key (Some true)
                   world_s3_put_denied in
  fst r = Return (example_hash, example_hash)
  /\ fst (@download PyJson.module ToyCrypto.primitives default_config
                    example_hash example_priv_key (Some true) (snd r))
     = Raise (ClientError (py "NoSuchKey")).
Proof.
  destruct example_pub_key_accepted as [pub_key Hpub].
  exact (@failed_put_key_does_not_download
           PyJson.module ToyCrypto.primitives default_config
           example_document example_pub_key example_priv_key pub_key
           example_hash world_s3_put_denied (ClientError (py "AccessDenied"))
           example_document_identifier Hpub eq_refl eq_refl eq_refl eq_refl).
Defined.

(* ================================================================== *)
(** * Key material                                                     *)
(* ================================================================== *)







(** The example document fetched from the bucket: nothing was written. *)
Lemma download_only_reads_witness :
  let w' := snd (@download PyJson.module ToyCrypto.primitives default_config
                           example_hash example_priv_key None world_s3_stored) in
  s3_objects w' = s3_objects world_s3_stored
  /\ ipfs_blocks w' = ipfs_blocks world_s3_stored
  /\ drawn w' = drawn world_s3_stored
  /\ (forall c, In c (calls w') ->
                In c (calls world_s3_stored) \/ is_write_call c = false).
Proof.
  exact (@download_only_reads PyJson.module ToyCrypto.primitives default_config
           example_hash example_priv_key None world_s3_stored).
Defined.

(** The other document uploaded to the content store next to a bucket
    that holds the example: the bucket is as it was. *)
Lemma one_backend_per_operation_witness :
  s3_objects (snd (@upload PyJson.module ToyCrypto.primitives default_config
                           other_document example_pub_key (Some false)
                           world_s3_stored))
  = s3_objects world_s3_stored.
Proof.
  exact (proj1 (@one_backend_per_operation
                  PyJson.module ToyCrypto.primitives default_config
                  other_document example_pub_key example_hash example_priv_key
                  (Some false) world_s3_stored)).
Defined.

